(** * notifsystem: a shallow embedding of [src/notifsystem.py]

    The program schedules desktop notifications through the external [at]
    queue and keeps a ledger file of the jobs it submitted.  This file
    embeds its validation, schedule computation, ledger and listing code
    and states the properties of the specification over that embedding.

    Conventions.
    - Python [str] values are [string]s of 8-bit characters; [<], [<=] and
      [==] on [str] are [String.ltb], [String.leb] and [String.eqb]
      (lexicographic on character codes).
    - A Python exception is a value of [exn]; a function that can raise
      returns [result].
    - Each call of [datetime.datetime.today()], [datetime.datetime.now()]
      or [time.time()] is an explicit argument of type [clock] of the
      function that makes the call.
    - The ledger file, the commands handed to the shell and the printed
      lines form the [world] threaded through the effectful functions. *)

From Stdlib Require Import ZArith List Bool Ascii String Lia DecimalString.
From Stdlib Require Import Permutation Sorted.
Import ListNotations.

Open Scope string_scope.
Open Scope Z_scope.

(** ** Python values used by the program *)

Module Py.

Inductive exn : Type :=
| ValueError
| IndexError
| AttributeError
| OverflowError
| TypeError
| FileNotFoundError
| SystemExit.

Inductive result (A : Type) : Type :=
| Ok (a : A)
| Raise (e : exn).
Arguments Ok {A} a.
Arguments Raise {A} e.

Definition bind {A B : Type} (r : result A) (k : A -> result B) : result B :=
  match r with
  | Ok a => k a
  | Raise e => Raise e
  end.

Definition of_option {A : Type} (e : exn) (o : option A) : result A :=
  match o with
  | Some a => Ok a
  | None => Raise e
  end.

(** *** Characters *)

Definition code (c : ascii) : Z := Z.of_N (N_of_ascii c).

(** [\d] and [[0-9]] on the 8-bit characters of the model. *)
Definition is_digit (c : ascii) : bool := (48 <=? code c) && (code c <=? 57).

(** [str.isspace] / [\s] on 8-bit characters: tab, line feed, vertical tab,
    form feed, carriage return, the four separators 28..31 and space. *)
Definition is_space (c : ascii) : bool :=
  ((9 <=? code c) && (code c <=? 13))
  || ((28 <=? code c) && (code c <=? 32)).

Definition in_range (lo hi c : ascii) : bool :=
  (code lo <=? code c) && (code c <=? code hi).

Definition digit_val (c : ascii) : Z := code c - 48.

(** *** Slices: [s[:n]], [s[n:]], [s[n:m]] *)

Fixpoint slice_to (n : nat) (s : string) : string :=
  match n, s with
  | S k, String c s' => String c (slice_to k s')
  | _, _ => ""
  end.

Fixpoint slice_from (n : nat) (s : string) : string :=
  match n, s with
  | S k, String _ s' => slice_from k s'
  | _, _ => s
  end.

Definition slice (n m : nat) (s : string) : string :=
  slice_from n (slice_to m s).

Definition len (s : string) : nat := String.length s.

(** *** [str.strip], [str.rstrip] *)

Fixpoint lstrip (s : string) : string :=
  match s with
  | String c s' => if is_space c then lstrip s' else s
  | "" => ""
  end.

Fixpoint rstrip (s : string) : string :=
  match s with
  | "" => ""
  | String c s' =>
      let r := rstrip s' in
      if is_space c && (r =? "")%string then "" else String c r
  end.

Definition strip (s : string) : string := rstrip (lstrip s).

(** *** [int(s)] on a string

    Surrounding whitespace is dropped, one sign is allowed, and the digits
    may be grouped by single underscores. [None] is [ValueError]. *)

Fixpoint int_digits (acc : Z) (after_digit : bool) (s : string) : option Z :=
  match s with
  | "" => if after_digit then Some acc else None
  | String c s' =>
      if is_digit c then int_digits (10 * acc + digit_val c) true s'
      else if (c =? "_")%char && after_digit then int_digits acc false s'
      else None
  end.

Definition int_opt (s : string) : option Z :=
  match strip s with
  | String "+" r => int_digits 0 false r
  | String "-" r => option_map Z.opp (int_digits 0 false r)
  | t => int_digits 0 false t
  end.

Definition int (s : string) : result Z := of_option ValueError (int_opt s).

(** *** [str(n)] on an integer, [str.zfill] *)

Definition str (n : Z) : string := NilZero.string_of_int (Z.to_int n).

Fixpoint zeros (n : nat) : string :=
  match n with
  | O => ""
  | S k => String "0" (zeros k)
  end.

Definition zfill (width : nat) (s : string) : string :=
  match s with
  | String "+" r => String "+" (zeros (width - len s) ++ r)
  | String "-" r => String "-" (zeros (width - len s) ++ r)
  | _ => zeros (width - len s) ++ s
  end.

(** *** [str.split(sep)] for a non-empty separator, [sep.join] *)

Fixpoint split_go (sep : string) (skip : nat) (cur : string) (s : string)
  : list string :=
  match s with
  | "" => [cur]
  | String c s' =>
      match skip with
      | S k => split_go sep k cur s'
      | O =>
          if prefix sep s
          then cur :: split_go sep (len sep - 1) "" s'
          else split_go sep 0 (cur ++ String c "") s'
      end
  end.

Definition split (sep s : string) : list string := split_go sep 0 "" s.

Definition join (sep : string) (l : list string) : string :=
  String.concat sep l.

(** [l[i]] ([IndexError] out of range) and [l[i:]]. *)
Definition index {A : Type} (l : list A) (i : nat) : result A :=
  of_option IndexError (nth_error l i).

(** *** [str.splitlines], and the lines of a text file *)

Definition is_linebreak (c : ascii) : bool :=
  ((10 <=? code c) && (code c <=? 13))
  || ((28 <=? code c) && (code c <=? 30)) || (code c =? 133).

Fixpoint splitlines_go (after_cr : bool) (cur : string) (s : string)
  : list string :=
  match s with
  | "" => if (cur =? "")%string then [] else [cur]
  | String c s' =>
      if after_cr && (code c =? 10) then splitlines_go false cur s'
      else if is_linebreak c
           then cur :: splitlines_go (code c =? 13) "" s'
           else splitlines_go false (cur ++ String c "") s'
  end.

Definition splitlines (s : string) : list string := splitlines_go false "" s.

(** [file.readlines()]: the lines with their line feed kept. *)
Fixpoint readlines_go (cur : string) (s : string) : list string :=
  match s with
  | "" => if (cur =? "")%string then [] else [cur]
  | String c s' =>
      if code c =? 10 then (cur ++ String c "") :: readlines_go "" s'
      else readlines_go (cur ++ String c "") s'
  end.

Definition readlines (s : string) : list string := readlines_go "" s.

(** *** [list.sort(key=...)]

    The sort is stable and compares keys with [<] only; with
    [reverse=True] the list is reversed, sorted and reversed again, which
    keeps equal keys in their original order. *)

Section Sort.
Context {A : Type} (key : A -> string).

Fixpoint insert (x : A) (l : list A) : list A :=
  match l with
  | [] => [x]
  | y :: l' =>
      if (key y <? key x)%string then y :: insert x l'
      else x :: y :: l'
  end.

Fixpoint sort (l : list A) : list A :=
  match l with
  | [] => []
  | x :: l' => insert x (sort l')
  end.

Definition sort_reverse (l : list A) : list A := rev (sort (rev l)).
End Sort.

(** *** [re.search] for the two patterns of the program *)

Fixpoint take_digits (s : string) : string :=
  match s with
  | String c s' => if is_digit c then String c (take_digits s') else ""
  | "" => ""
  end.

(** [re.search("job [0-9]+", s)]: the leftmost match, digits greedy;
    the value is [m.group()]. *)
Fixpoint search_job (s : string) : option string :=
  match s with
  | "" => None
  | String _ s' =>
      if prefix "job " s
      then match take_digits (slice_from 4 s) with
           | "" => search_job s'
           | d => Some ("job " ++ d)
           end
      else search_job s'
  end.

(** [re.search("[0-9]+", s)]. *)
Fixpoint search_digits (s : string) : option string :=
  match s with
  | "" => None
  | String c s' => if is_digit c then Some (take_digits s) else search_digits s'
  end.

(** [m.group()] on the result of [re.search]: [None] has no [group]. *)
Definition group (m : option string) : result string :=
  of_option AttributeError m.

End Py.

Import Py.

(** ** The [datetime] and [time] modules, as far as the program uses them *)

Module DT.

(** A naive [datetime.datetime]. *)
Record datetime : Type := mkdt {
  year : Z; month : Z; day : Z;
  hour : Z; minute : Z; second : Z; microsecond : Z
}.

(** A [datetime.timedelta], normalised as Python keeps it:
    [0 <= seconds < 86400], [0 <= microseconds < 1000000]. *)
Record timedelta : Type := mktd {
  td_days : Z; td_seconds : Z; td_microseconds : Z
}.

Definition MAXORDINAL : Z := 3652059.

Definition is_leap (y : Z) : bool :=
  (y mod 4 =? 0) && (negb (y mod 100 =? 0) || (y mod 400 =? 0)).

(** Days of each month of a common year. *)
Definition DAYS_IN_MONTH (m : Z) : Z :=
  match m with
  | 1 => 31 | 2 => 28 | 3 => 31 | 4 => 30 | 5 => 31 | 6 => 30
  | 7 => 31 | 8 => 31 | 9 => 30 | 10 => 31 | 11 => 30 | 12 => 31
  | _ => 0
  end.

Definition days_in_month (y m : Z) : Z :=
  if (m =? 2) && is_leap y then 29 else DAYS_IN_MONTH m.

Definition days_before_year (y : Z) : Z :=
  let p := y - 1 in p * 365 + p / 4 - p / 100 + p / 400.

(** Days of the common year before the first of month [m]. *)
Definition DAYS_BEFORE_MONTH (m : Z) : Z :=
  match m with
  | 1 => 0 | 2 => 31 | 3 => 59 | 4 => 90 | 5 => 120 | 6 => 151
  | 7 => 181 | 8 => 212 | 9 => 243 | 10 => 273 | 11 => 304 | 12 => 334
  | _ => 0
  end.

Definition days_before_month (y m : Z) : Z :=
  DAYS_BEFORE_MONTH m + (if (2 <? m) && is_leap y then 1 else 0).

(** [date.toordinal]: 0001-01-01 is day 1. *)
Definition ymd2ord (y m d : Z) : Z :=
  days_before_year y + days_before_month y m + d.

(** [date.fromordinal], as the pure-Python [_ord2ymd] computes it. *)
Definition ord2ymd (n0 : Z) : Z * Z * Z :=
  let n := n0 - 1 in
  let n400 := n / 146097 in
  let n := n mod 146097 in
  let y0 := n400 * 400 + 1 in
  let n100 := n / 36524 in
  let n := n mod 36524 in
  let n4 := n / 1461 in
  let n := n mod 1461 in
  let n1 := n / 365 in
  let n := n mod 365 in
  let y := y0 + n100 * 100 + n4 * 4 + n1 in
  if (n1 =? 4) || (n100 =? 4) then (y - 1, 12, 31)
  else
    let leapyear := (n1 =? 3) && (negb (n4 =? 24) || (n100 =? 3)) in
    let m := Z.shiftr (n + 50) 5 in
    let preceding :=
      DAYS_BEFORE_MONTH m + (if (2 <? m) && leapyear then 1 else 0) in
    if n <? preceding
    then
      let m' := m - 1 in
      let preceding' :=
        preceding
        - (DAYS_IN_MONTH m' + (if (m' =? 2) && leapyear then 1 else 0)) in
      (y, m', n - preceding' + 1)
    else (y, m, n - preceding + 1).

(** The constructor [datetime(y, m, d, H, M, S, us)] checks every field
    and raises [ValueError] otherwise. *)
Definition fields_ok (y m d H M S us : Z) : bool :=
  (1 <=? y) && (y <=? 9999) && (1 <=? m) && (m <=? 12)
  && (1 <=? d) && (d <=? days_in_month y m)
  && (0 <=? H) && (H <=? 23) && (0 <=? M) && (M <=? 59)
  && (0 <=? S) && (S <=? 59) && (0 <=? us) && (us <=? 999999).

Definition new (y m d H M S us : Z) : result datetime :=
  if fields_ok y m d H M S us then Ok (mkdt y m d H M S us)
  else Raise ValueError.

Definition replace_hour (t : datetime) (h : Z) : result datetime :=
  new (year t) (month t) (day t) h (minute t) (second t) (microsecond t).

Definition replace_minute (t : datetime) (m : Z) : result datetime :=
  new (year t) (month t) (day t) (hour t) m (second t) (microsecond t).

Definition replace_second (t : datetime) (s : Z) : result datetime :=
  new (year t) (month t) (day t) (hour t) (minute t) s (microsecond t).

Definition toordinal (t : datetime) : Z := ymd2ord (year t) (month t) (day t).

(** [t + datetime.timedelta(days=n)]: [OverflowError] outside the
    representable dates. *)
Definition add_days (t : datetime) (n : Z) : result datetime :=
  let o := toordinal t + n in
  if (0 <? o) && (o <=? MAXORDINAL)
  then let '(y, m, d) := ord2ymd o in
       Ok (mkdt y m d (hour t) (minute t) (second t) (microsecond t))
  else Raise OverflowError.

(** [a - b] on two datetimes. *)
Definition sub (a b : datetime) : timedelta :=
  let secs (t : datetime) := second t + minute t * 60 + hour t * 3600 in
  let total :=
    ((toordinal a - toordinal b) * 86400 + (secs a - secs b)) * 1000000
    + (microsecond a - microsecond b) in
  let s := total / 1000000 in
  mktd (s / 86400) (s mod 86400) (total mod 1000000).

Definition pad (w : nat) (n : Z) : string := zfill w (str n).

(** [str(td)]. *)
Definition str_timedelta (td : timedelta) : string :=
  let mm := td_seconds td / 60 in
  let ss := td_seconds td mod 60 in
  let hh := mm / 60 in
  let mm := mm mod 60 in
  let s := str hh ++ ":" ++ pad 2 mm ++ ":" ++ pad 2 ss in
  let s :=
    if td_days td =? 0 then s
    else str (td_days td) ++ " day"
         ++ (if Z.abs (td_days td) =? 1 then "" else "s") ++ ", " ++ s in
  if td_microseconds td =? 0 then s
  else s ++ "." ++ pad 6 (td_microseconds td).

(** *** Format strings *)

Inductive directive : Type := dY | dm | dd | dH | dM | dS.

Inductive item : Type :=
| Dir (d : directive)
| Lit (c : ascii)
| Ws (s : string).

Definition directive_of (c : ascii) : option directive :=
  if (c =? "Y")%char then Some dY else
  if (c =? "m")%char then Some dm else
  if (c =? "d")%char then Some dd else
  if (c =? "H")%char then Some dH else
  if (c =? "M")%char then Some dM else
  if (c =? "S")%char then Some dS else None.

(** The items of a format string: the six directives the program uses,
    runs of whitespace, and literal characters. *)
Fixpoint parse_format (f : string) : list item :=
  match f with
  | "" => []
  | String "%" (String c f') =>
      match directive_of c with
      | Some d => Dir d :: parse_format f'
      | None => Lit c :: parse_format f'
      end
  | String c f' =>
      if is_space c
      then match parse_format f' with
           | Ws s :: r => Ws (String c s) :: r
           | r => Ws (String c "") :: r
           end
      else Lit c :: parse_format f'
  end.

(** [datetime.strftime]. *)
Definition format_item (t : datetime) (i : item) : string :=
  match i with
  | Dir dY => pad 4 (year t)
  | Dir dm => pad 2 (month t)
  | Dir dd => pad 2 (day t)
  | Dir dH => pad 2 (hour t)
  | Dir dM => pad 2 (minute t)
  | Dir dS => pad 2 (second t)
  | Lit c => String c ""
  | Ws s => s
  end.

Definition strftime (t : datetime) (f : string) : string :=
  String.concat "" (map (format_item t) (parse_format f)).

(** [str(t)]: ISO format with a space, microseconds only when non-zero. *)
Definition str_datetime (t : datetime) : string :=
  strftime t "%Y-%m-%d %H:%M:%S"
  ++ (if microsecond t =? 0 then "" else "." ++ pad 6 (microsecond t)).

(** *** [datetime.strptime]

    [_strptime] turns the format into a regular expression, one group of
    ordered alternatives per directive, matches it at the start of the
    string with backtracking, and rejects a match that leaves characters
    over. *)

Inductive cls : Type :=
| Digit
| Range (lo hi : ascii)
| Char (c : ascii).

Definition cls_matches (k : cls) (c : ascii) : bool :=
  match k with
  | Digit => is_digit c
  | Range lo hi => in_range lo hi c
  | Char c' => (c' =? c)%char
  end.

Definition alternatives (d : directive) : list (list cls) :=
  match d with
  | dY => [[Digit; Digit; Digit; Digit]]
  | dm => [[Char "1"; Range "0" "2"]; [Char "0"; Range "1" "9"];
           [Range "1" "9"]]
  | dd => [[Char "3"; Range "0" "1"]; [Range "1" "2"; Digit];
           [Char "0"; Range "1" "9"]; [Range "1" "9"];
           [Char " "; Range "1" "9"]]
  | dH => [[Char "2"; Range "0" "3"]; [Range "0" "1"; Digit]; [Digit]]
  | dM => [[Range "0" "5"; Digit]; [Digit]]
  | dS => [[Char "6"; Range "0" "1"]; [Range "0" "5"; Digit]; [Digit]]
  end.

(** One alternative against the start of [s]: the text it consumes and
    the rest. *)
Fixpoint match_seq (alt : list cls) (s : string) : option (string * string) :=
  match alt with
  | [] => Some ("", s)
  | k :: alt' =>
      match s with
      | String c s' =>
          if cls_matches k c
          then match match_seq alt' s' with
               | Some (g, rest) => Some (String c g, rest)
               | None => None
               end
          else None
      | "" => None
      end
  end.

(** The rests of [s] after one or more whitespace characters, the longest
    run first ([\s+] is greedy). *)
Fixpoint ws_rests (s : string) : list string :=
  match s with
  | String c s' => if is_space c then ws_rests s' ++ [s'] else []
  | "" => []
  end.

(** Literal characters match without regard to case. *)
Definition lower (c : ascii) : ascii :=
  if (65 <=? code c) && (code c <=? 90)
  then ascii_of_N (N_of_ascii c + 32) else c.

Definition groups : Type := list (directive * string).

(** Every way the items match at the start of [s], in the order the
    backtracking matcher tries them. *)
Fixpoint match_items (its : list item) (s : string) : list (groups * string) :=
  match its with
  | [] => [([], s)]
  | Dir d :: r =>
      flat_map
        (fun alt =>
           match match_seq alt s with
           | Some (g, rest) =>
               map (fun x => ((d, g) :: fst x, snd x)) (match_items r rest)
           | None => []
           end)
        (alternatives d)
  | Lit c :: r =>
      match s with
      | String c' s' =>
          if (lower c =? lower c')%char then match_items r s' else []
      | "" => []
      end
  | Ws _ :: r => flat_map (match_items r) (ws_rests s)
  end.

Definition re_match (its : list item) (s : string) : option (groups * string) :=
  hd_error (match_items its s).

(** The fields start at 1900-01-01 00:00:00 and each group overwrites
    its own. *)
Fixpoint fill (g : groups) (y m d H M S : Z) : result datetime :=
  match g with
  | [] => new y m d H M S 0
  | (k, txt) :: g' =>
      bind (int txt) (fun v =>
        match k with
        | dY => fill g' v m d H M S
        | dm => fill g' y v d H M S
        | dd => fill g' y m v H M S
        | dH => fill g' y m d v M S
        | dM => fill g' y m d H v S
        | dS => fill g' y m d H M v
        end)
  end.

Definition strptime (s f : string) : result datetime :=
  match re_match (parse_format f) s with
  | None => Raise ValueError
  | Some (g, rest) =>
      if (rest =? "")%string then fill g 1900 1 1 0 0 0
      else Raise ValueError
  end.

(** *** The clock

    A reading of the system clock: microseconds since the epoch and the
    offset of local time from UTC in seconds, taken as constant over the
    delays the program adds. *)
Record clock : Type := mkclock { epoch_us : Z; utcoff : Z }.

(** [int(time.time())]: the fraction is cut off. *)
Definition time_time (c : clock) : Z := Z.quot (epoch_us c) 1000000.

(** [time.localtime(t)] as a datetime without microseconds. *)
Definition localtime (c : clock) (t : Z) : datetime :=
  let l := t + utcoff c in
  let sod := l mod 86400 in
  let '(y, m, d) := ord2ymd (l / 86400 + 719163) in
  mkdt y m d (sod / 3600) (sod mod 3600 / 60) (sod mod 60) 0.

(** [datetime.datetime.today()] and [datetime.datetime.now()]. *)
Definition today (c : clock) : datetime :=
  let t := localtime c (epoch_us c / 1000000) in
  mkdt (year t) (month t) (day t) (hour t) (minute t) (second t)
       (epoch_us c mod 1000000).

(** The reading at which the local wall clock shows the given instant
    (offset 0). *)
Definition clock_at (y m d H M S us : Z) : clock :=
  mkclock (((ymd2ord y m d - 719163) * 86400 + H * 3600 + M * 60 + S)
           * 1000000 + us) 0.

End DT.

Import DT.

(** ** The program *)

Definition LF : string := String "010" "".
Definition TAB : string := String "009" "".
Definition DQUOTE : string := String "034" "".

Definition JOBFILE : string := "/tmp/message-jobs.txt".

(** One row of the listing:
    [[jobID, time_when, time_left, time_left_seconds, prioritize, job_message]]. *)
Record entry : Type := mkentry {
  e_jobID : string;
  e_time_when : string;
  e_time_left : string;
  e_time_left_seconds : string;
  e_prioritize : string;
  e_message : string
}.

(** What the program prints: a line, the usage text of [argparse], or the
    table [tabulate] renders from the rows. *)
Inductive output : Type :=
| Line (s : string)
| Help
| Table (rows : list entry).

(** The file at [JOBFILE] ([None]: it does not exist), the commands handed
    to the shell, and the output, both latest first. *)
Record world : Type := mkworld {
  jobfile : option string;
  commands : list string;
  printed : list output
}.

Definition M (A : Type) : Type := world -> result A * world.

Definition ret {A : Type} (a : A) : M A := fun w => (Ok a, w).

Definition raise {A : Type} (e : exn) : M A := fun w => (Raise e, w).

Definition bindM {A B : Type} (m : M A) (k : A -> M B) : M B :=
  fun w =>
    match m w with
    | (Ok a, w') => k a w'
    | (Raise e, w') => (Raise e, w')
    end.

Definition lift {A : Type} (r : result A) : M A := fun w => (r, w).

Notation "x <- m ;; k" := (bindM m (fun x => k))
  (at level 61, m at next level, right associativity).
Notation "m ;;; k" := (bindM m (fun _ => k))
  (at level 61, right associativity).

Definition print (o : output) : M unit :=
  fun w => (Ok tt, mkworld (jobfile w) (commands w) (o :: printed w)).

(** [sys.exit()]. *)
Definition exit {A : Type} : M A := raise SystemExit.

Inductive operation : Type := OpAdd | OpList | OpDel.

Inductive add_mode : Type := ModeAt | ModeIn | ModeOn.

(** The namespace [argparse] returns; an option that was not given is
    [None]. *)
Record arguments : Type := mkargs {
  operation_ : operation;
  add_mode_ : add_mode;
  time_ : option string;
  sound_ : bool;
  prioritize_ : bool;
  uptime_ : Z;
  message_ : option string;
  alphabetical_ : bool;
  id_ : option string
}.

Definition operation_name (o : operation) : string :=
  match o with OpAdd => "add" | OpList => "list" | OpDel => "del" end.

(** The clock readings of one [add] invocation, in the order the calls are
    made: [time.time()] in [add_delta], the two [today()] of [prepend_year],
    [today()] in [change_if_targeting_current_minute] and [now()] in
    [get_scheduled_time]. *)
Record readings : Type := mkreadings {
  r_delta : clock;
  r_mmdd : clock;
  r_yyyy : clock;
  r_minute : clock;
  r_sched : clock
}.

Definition succeeds {A : Type} (r : result A) : bool :=
  match r with Ok _ => true | Raise _ => false end.

Definition valid_time (time_string : option string) : bool :=
  match time_string with
  | None => false
  | Some s =>
      if (len s =? 4)%nat then succeeds (strptime s "%H%M")
      else if (len s =? 6)%nat then succeeds (strptime s "%H%M%S")
      else false
  end.

Definition valid_date (date_string : option string) : bool :=
  match date_string with
  | None => false
  | Some s =>
      if (len s =? 8)%nat then succeeds (strptime s "%Y%m%d")
      else if (len s =? 4)%nat then succeeds (strptime s "%m%d")
      else false
  end.

(** The value is [True], [False] or, when the function runs off its end,
    [None]. *)
Definition past_date (now : clock) (date_string : string) : option bool :=
  if (len date_string =? 4)%nat then Some false
  else
    let current_date := strftime (today now) "%Y%m%d" in
    if (date_string <=? current_date)%string then Some true else None.

(** The truth value of a condition. *)
Definition truthy (v : option bool) : bool :=
  match v with
  | Some b => b
  | None => false
  end.

Definition check_add (now : clock) (args : arguments) : M unit :=
  let mode := add_mode_ args in
  (match mode with
   | ModeAt | ModeIn =>
       if negb (valid_time (time_ args))
       then print (Line "Invalid or missing time specification!") ;;;
            print Help ;;; exit
       else ret tt
   | ModeOn =>
       if negb (valid_date (time_ args))
       then print (Line "Invalid or missing date specification!") ;;;
            print Help ;;; exit
       else
         past <- lift (match time_ args with
                       | Some s => Ok (past_date now s)
                       | None => Raise TypeError
                       end) ;;
         if truthy past
         then print (Line "The date should be a future date!") ;;; exit
         else ret tt
   end) ;;;
  match message_ args with
  | None =>
      print (Line "Missing message specification!") ;;; print Help ;;; exit
  | Some _ => ret tt
  end.

Definition check_list_del (args : arguments) : M unit :=
  (if (match time_ args with Some _ => true | None => false end)
      || sound_ args || negb (uptime_ args =? 0)
   then print (Line ("Extraneous options specified with the "
                     ++ operation_name (operation_ args) ++ " operation!")) ;;;
        exit
   else ret tt) ;;;
  match operation_ args, id_ args with
  | OpDel, None =>
      print (Line "ID of the notification to cancel not specified!") ;;; exit
  | _, _ => ret tt
  end.

Definition check_arguments (now : clock) (args : arguments) : M unit :=
  match operation_ args with
  | OpAdd => check_add now args
  | OpList | OpDel => check_list_del args
  end.

Definition parse_time_to_seconds (time_string : string) : result Z :=
  let time_string :=
    if (len time_string =? 4)%nat then time_string ++ "00" else time_string in
  bind (int (slice_to 2 time_string)) (fun h =>
  bind (int (slice 2 4 time_string)) (fun m =>
  bind (int (slice_from 4 time_string)) (fun s =>
  Ok (h * 3600 + m * 60 + s)))).

Definition change_if_targeting_current_minute
  (now : clock) (at_time seconds_offset : string) : result (string * string) :=
  let time_string_now := strftime (today now) "%H%M%S" in
  if (time_string_now <? at_time ++ seconds_offset)%string
     && (at_time =? slice_to 4 time_string_now)%string
  then
    bind (int seconds_offset) (fun a =>
    bind (int (slice_from 4 time_string_now)) (fun b =>
    Ok ("now", str (a - b))))
  else Ok (at_time, seconds_offset).

(** The value is the string with the next year in front, or [None] when
    the function runs off its end. *)
Definition prepend_year (now1 now2 : clock) (time_string : string)
  : result (option string) :=
  let mmdd_now := strftime (today now1) "%m%d" in
  let yyyy_now := strftime (today now2) "%Y" in
  bind (int yyyy_now) (fun y =>
  let yyyy_next := str (y + 1) in
  if (slice_to 4 time_string <=? mmdd_now)%string
  then Ok (Some (yyyy_next ++ time_string))
  else Ok None).

Definition at_time_and_seconds_offset (r : readings) (time_string : string)
  : result (string * string) :=
  bind (if (len time_string =? 8)%nat
        then bind (prepend_year (r_mmdd r) (r_yyyy r) time_string)
                  (fun _ => Ok tt)
        else Ok tt) (fun _ =>
  if (len time_string =? 12)%nat then Ok (" -t " ++ time_string, "00")
  else if (len time_string =? 4)%nat then Ok (time_string, "00")
  else change_if_targeting_current_minute (r_minute r)
         (slice_to 4 time_string) (slice_from 4 time_string)).

Definition command_to_execute
  (at_time seconds_offset message : string) (uptime : Z) (sound_command : string)
  : string :=
  "echo " ++ "'export DISPLAY=:0 && " ++ "sleep " ++ seconds_offset ++ " && "
  ++ "notify-send " ++ "-t " ++ str (uptime * 1000)
  ++ " " ++ DQUOTE ++ message ++ DQUOTE ++ sound_command
  ++ "' | at " ++ at_time.

Definition write_job_to_file
  (jobID scheduled_time seconds_offset : string) (prioritize : bool)
  (message : string) : M unit :=
  fun w =>
    let header :=
      match jobfile w with
      | None =>
          Some ("JobID | Scheduled date & time | Seconds offset | Prioritized | Message"
                ++ LF)
      | Some _ => None
      end in
    let job_line :=
      jobID ++ " | " ++ scheduled_time ++ " | " ++ seconds_offset ++ " | "
      ++ (if prioritize then "Yes" else "No") ++ " | " ++ message ++ LF in
    let old := match jobfile w with Some c => c | None => "" end in
    let content :=
      match header with
      | Some h => old ++ h ++ job_line
      | None => old ++ job_line
      end in
    (Ok tt, mkworld (Some content) (commands w) (printed w)).

Definition get_scheduled_time (now : clock) (time_string seconds_offset : string)
  : result string :=
  let time_now := today now in
  let HH_now := zfill 2 (str (hour time_now)) in
  let MM_now := zfill 2 (str (minute time_now)) in
  if (slice_to 4 time_string =? " -t ")%string
  then
    bind (strptime time_string " -t %Y%m%d%H%M%S") (fun datetime_object =>
    Ok (strftime datetime_object "%Y-%m-%d %H:%M:%S"))
  else
    bind (if (time_string <? HH_now ++ MM_now)%string
          then add_days time_now 1 else Ok time_now) (fun datetime_object =>
    bind (if negb (time_string =? "now")%string
          then
            bind (int (slice_to 2 time_string)) (fun h =>
            bind (replace_hour datetime_object h) (fun datetime_object =>
            bind (int (slice 2 4 time_string)) (fun m =>
            replace_minute datetime_object m)))
          else Ok datetime_object) (fun datetime_object =>
    bind (int seconds_offset) (fun s =>
    bind (replace_second datetime_object s) (fun datetime_object =>
    Ok (strftime datetime_object "%Y-%m-%d %H:%M:%S"))))).

(** [get_time_left]: the text of [date_time_obj - today()] without its
    fraction, and the [seconds] attribute of the difference. *)
Definition get_time_left (now : clock) (date_time_obj : datetime)
  : result (string * string) :=
  let delta := sub date_time_obj (today now) in
  bind (index (split "." (str_timedelta delta)) 0) (fun time_left =>
  let time_left :=
    if (len time_left =? 7)%nat then "0" ++ time_left else time_left in
  let time_left_seconds := str (td_seconds delta) in
  Ok (time_left, time_left_seconds)).

Definition job_line_into_output_fields (now : clock) (job : string)
  : result entry :=
  let fields := split " | " job in
  bind (index fields 0) (fun jobID =>
  bind (index fields 1) (fun job_time =>
  bind (index fields 2) (fun seconds_offset =>
  bind (index fields 3) (fun prioritize =>
  let job_message := rstrip (join "" (skipn 4 fields)) in
  bind (strptime job_time "%Y-%m-%d %H:%M:%S") (fun date_time_obj =>
  let time_when := str_datetime date_time_obj in
  bind (get_time_left now date_time_obj) (fun tl =>
  Ok (mkentry jobID time_when (fst tl) (snd tl) prioritize job_message))))))).

Definition get_job_ID (job_line : string) : result string :=
  group (search_digits job_line).

(** The sorting passes of [get_notification_entries] on the rows of the
    live jobs; the loop after them rebinds its variable only. *)
Definition sort_entries (alphabetical : bool) (job_entries : list entry)
  : list entry :=
  let job_entries :=
    if alphabetical then sort e_message job_entries
    else sort e_time_left_seconds job_entries in
  sort_reverse e_prioritize job_entries.

Fixpoint mapM {A B : Type} (f : A -> result B) (l : list A) : result (list B) :=
  match l with
  | [] => Ok []
  | a :: l' => bind (f a) (fun b => bind (mapM f l') (fun bs => Ok (b :: bs)))
  end.

Section Program.

(** The shell: what a command prints on its standard output and on its
    standard error. *)
Variable shell : string -> string * string.

(** [subprocess.run(command, shell=True, capture_output=True, text=True)]. *)
Definition run (command : string) : M (string * string) :=
  fun w =>
    (Ok (shell command),
     mkworld (jobfile w) (command :: commands w) (printed w)).

Definition add_at (r : readings) (time_string : string)
  (sound prioritize : bool) (uptime : Z) (message : string) : M unit :=
  p <- lift (at_time_and_seconds_offset r time_string) ;;
  let at_time := fst p in
  let seconds_offset := snd p in
  let sound_command := if sound then " && mplayer ~/bin/bell.mp3" else "" in
  let command :=
    command_to_execute at_time seconds_offset message uptime sound_command in
  out <- run command ;;
  let output := snd out in
  m <- lift (group (search_job output)) ;;
  let jobID := slice_from 4 m in
  scheduled_time <- lift (get_scheduled_time (r_sched r) at_time seconds_offset) ;;
  write_job_to_file jobID scheduled_time seconds_offset prioritize message.

Definition add_delta (now : clock) (time_string : string) : result string :=
  bind (parse_time_to_seconds time_string) (fun time_delta =>
  let current_time_from_epoch := time_time now in
  let target_time_from_epoch := current_time_from_epoch + time_delta in
  Ok (strftime (localtime now target_time_from_epoch) "%H%M%S")).

Definition add_in (r : readings) (time_string : string)
  (sound prioritize : bool) (uptime : Z) (message : string) : M unit :=
  target_time <- lift (add_delta (r_delta r) time_string) ;;
  add_at r target_time sound prioritize uptime message.

Definition add_on (r : readings) (date_string : string)
  (sound prioritize : bool) (uptime : Z) (message : string) : M unit :=
  let target_time := date_string ++ "0000" in
  add_at r target_time sound prioritize uptime message.

Definition add_notification (r : readings) (mode : add_mode)
  (time_string : string) (sound prioritize : bool) (uptime : Z)
  (message : string) : M unit :=
  match mode with
  | ModeAt => add_at r time_string sound prioritize uptime message
  | ModeIn => add_in r time_string sound prioritize uptime message
  | ModeOn => add_on r time_string sound prioritize uptime message
  end.

Definition pending_jobIDs : M (list string) :=
  out <- run "atq" ;;
  let job_lines := splitlines (fst out) in
  lift (mapM (fun line => index (split TAB line) 0) job_lines).

Definition job_entries : M (list string) :=
  fun w =>
    match jobfile w with
    | None => (Raise FileNotFoundError, w)
    | Some c => (Ok (tl (readlines c)), w)
    end.

Fixpoint keep_active (active_IDs : list string) (jobs_in_file : list string)
  : result (list string) :=
  match jobs_in_file with
  | [] => Ok []
  | job_line :: rest =>
      bind (get_job_ID job_line) (fun jobID =>
      bind (keep_active active_IDs rest) (fun jobs_to_list =>
      if existsb (String.eqb jobID) active_IDs
      then Ok (job_line :: jobs_to_list) else Ok jobs_to_list))
  end.

Definition get_jobs_to_list : M (list string) :=
  active_IDs <- pending_jobIDs ;;
  jobs_in_file <- job_entries ;;
  lift (keep_active active_IDs jobs_in_file).

(** [now] is the clock reading each row's [get_time_left] makes. *)
Definition get_notification_entries (now : clock) (alphabetical : bool)
  : M (list entry) :=
  jobs_to_list <- get_jobs_to_list ;;
  job_entries <- lift (mapM (job_line_into_output_fields now) jobs_to_list) ;;
  ret (sort_entries alphabetical job_entries).

Definition list_notifications (now : clock) (alphabetical : bool) : M unit :=
  notification_entries <- get_notification_entries now alphabetical ;;
  match notification_entries with
  | [] => print (Line "No scheduled notifications.")
  | _ => print (Table notification_entries)
  end.

Definition contains (sub s : string) : bool :=
  match String.index 0 sub s with Some _ => true | None => false end.

Definition delete_notification (jobID : string) : M unit :=
  out <- run ("atrm " ++ jobID) ;;
  let output := snd out in
  if contains "Cannot find jobid" output
  then print (Line "Notification does not exist.")
  else if (output =? "")%string
       then print (Line ("Notification with ID " ++ jobID ++ " deleted."))
       else ret tt.

(** The value of an option that was given. Using [None] as a string
    ([len], [+]) raises [TypeError] before anything is run or written;
    after [check_arguments] the case does not occur. *)
Definition need {A : Type} (o : option A) : M A :=
  lift (of_option TypeError o).

(** The listing takes the reading [r_sched] for its rows. *)
Definition dispatch (r : readings) (args : arguments) : M unit :=
  match operation_ args with
  | OpAdd =>
      t <- need (time_ args) ;;
      m <- need (message_ args) ;;
      add_notification r (add_mode_ args) t (sound_ args)
        (prioritize_ args) (uptime_ args) m
  | OpList => list_notifications (r_sched r) (alphabetical_ args)
  | OpDel => j <- need (id_ args) ;; delete_notification j
  end.

(** The script: check the arguments, then dispatch. [now] is the reading
    of [past_date]. *)
Definition main (now : clock) (r : readings) (args : arguments) : M unit :=
  check_arguments now args ;;; dispatch r args.

End Program.

(** ** Notions the statements use *)

(** A string of decimal digits. *)
Fixpoint all_digits (s : string) : bool :=
  match s with
  | "" => true
  | String c s' => is_digit c && all_digits s'
  end.

(** The number a string of decimal digits writes. *)
Fixpoint decimal_from (acc : Z) (s : string) : Z :=
  match s with
  | "" => acc
  | String c s' => decimal_from (10 * acc + digit_val c) s'
  end.

Definition decimal (s : string) : Z := decimal_from 0 s.

(** The [HHMMSS] and [HHMM] texts of a clock reading. *)
Definition hhmmss (now : clock) : string := strftime (today now) "%H%M%S".

Definition hhmm (now : clock) : string := slice_to 4 (hhmmss now).

(** All readings of an invocation taken at one instant. *)
Definition at_instant (now : clock) : readings := mkreadings now now now now now.

(** The ledger after a run. *)
Definition ledger_after {A : Type} (m : M A) (w : world) : option string :=
  jobfile (snd (m w)).

(** The rows with and without priority. *)
Definition is_yes (e : entry) : bool := (e_prioritize e =? "Yes")%string.

Definition is_no (e : entry) : bool := (e_prioritize e =? "No")%string.

(** Every row carries the [Yes] or [No] that [write_job_to_file] writes. *)
Definition flagged (l : list entry) : Prop :=
  Forall (fun e => e_prioritize e = "Yes" \/ e_prioritize e = "No") l.

(** The second of the local day a reading falls on. *)
Definition second_of_day (now : clock) : Z :=
  (epoch_us now / 1000000 + utcoff now) mod 86400.

(** A character class that holds digits only. *)
Definition cls_digit (k : cls) : bool :=
  match k with
  | Digit => true
  | Range lo hi => is_digit lo && is_digit hi
  | Char c => is_digit c
  end.

(** The text a list of groups covers. *)
Fixpoint texts (g : groups) : string :=
  match g with
  | [] => ""
  | (_, t) :: g' => t ++ texts g'
  end.

(** The target and the offset [add_notification] computes in each mode,
    and what [add_at] does with them. *)
Definition schedule (r : readings) (mode : add_mode) (t : string)
  : result (string * string) :=
  match mode with
  | ModeAt => at_time_and_seconds_offset r t
  | ModeIn => bind (add_delta (r_delta r) t) (at_time_and_seconds_offset r)
  | ModeOn => at_time_and_seconds_offset r (t ++ "0000")
  end.

Definition submit (shell : string -> string * string) (r : readings)
  (p : string * string) (sound prioritize : bool) (uptime : Z)
  (message : string) : M unit :=
  out <- run shell
           (command_to_execute (fst p) (snd p) message uptime
              (if sound then " && mplayer ~/bin/bell.mp3" else "")) ;;
  m <- lift (group (search_job (snd out))) ;;
  scheduled_time <- lift (get_scheduled_time (r_sched r) (fst p) (snd p)) ;;
  write_job_to_file (slice_from 4 m) scheduled_time (snd p) prioritize message.

(** The reading [d] seconds after [now]. *)
Definition later (now : clock) (d : Z) : clock :=
  mkclock (epoch_us now + d * 1000000) (utcoff now).

(** A group of directive [d]: its text has the length of one of the
    alternatives of [d], and holds digits when that alternative does. *)
Definition group_of (d : directive) (p : directive * string) : Prop :=
  fst p = d
  /\ exists alt, In alt (alternatives d)
       /\ len (snd p) = List.length alt
       /\ (forallb cls_digit alt = true -> all_digits (snd p) = true).

(** Digits that write an hour and a minute, and a second when there are
    six of them. *)
Definition clock_fields_ok (s : string) : bool :=
  all_digits s
  && (decimal (slice_to 2 s) <=? 23) && (decimal (slice 2 4 s) <=? 59)
  && (((len s =? 4)%nat)
      || (((len s =? 6)%nat) && (decimal (slice_from 4 s) <=? 59))).

(** A month and a day of a common year, in four digits. *)
Definition month_day_ok (s : string) : bool :=
  (1 <=? decimal (slice_to 2 s)) && (decimal (slice_to 2 s) <=? 12)
  && (1 <=? decimal (slice_from 2 s))
  && (decimal (slice_from 2 s) <=? DAYS_IN_MONTH (decimal (slice_to 2 s))).

(** What [check_add] lets through. *)
Definition add_accepted (now : clock) (args : arguments) : bool :=
  match add_mode_ args with
  | ModeAt | ModeIn => valid_time (time_ args)
  | ModeOn =>
      valid_date (time_ args)
      && negb (match time_ args with
               | Some s => truthy (past_date now s)
               | None => false
               end)
  end
  && match message_ args with Some _ => true | None => false end.

(** What [check_list_del] lets through. *)
Definition list_del_accepted (args : arguments) : bool :=
  match time_ args with None => true | Some _ => false end
  && negb (sound_ args) && (uptime_ args =? 0)
  && match operation_ args, id_ args with
     | OpDel, None => false
     | _, _ => true
     end.

(** The first line of the ledger and a row of it. *)
Definition HEADER : string :=
  "JobID | Scheduled date & time | Seconds offset | Prioritized | Message" ++ LF.

Definition job_row (jobID scheduled_time seconds_offset : string)
  (prioritize : bool) (message : string) : string :=
  jobID ++ " | " ++ scheduled_time ++ " | " ++ seconds_offset ++ " | "
  ++ (if prioritize then "Yes" else "No") ++ " | " ++ message ++ LF.

(** A computation that leaves the ledger file as it is, whatever its
    outcome. *)
Definition keeps_ledger {A : Type} (m : M A) : Prop :=
  forall w, jobfile (snd (m w)) = jobfile w.




(** A line with a run of digits, and a line whose first run of digits is
    one of the live ids. *)
Definition has_id (line : string) : bool :=
  match search_digits line with Some _ => true | None => false end.

Definition live (active_IDs : list string) (line : string) : bool :=
  match search_digits line with
  | Some jobID => existsb (String.eqb jobID) active_IDs
  | None => false
  end.

(** The seconds of the day a datetime shows. *)
Definition day_seconds (t : datetime) : Z :=
  second t + minute t * 60 + hour t * 3600.

(** The key of the first sorting pass and the order of its texts. *)
Definition first_key (alphabetical : bool) (e : entry) : string :=
  if alphabetical then e_message e else e_time_left_seconds e.

Definition key_le (alphabetical : bool) (x y : entry) : Prop :=
  (first_key alphabetical x <=? first_key alphabetical y)%string = true.

(** The ids in the output of [atq]: the text before the first tab of each
    line. *)
Definition atq_ids (stdout : string) : list string :=
  map (fun line => hd "" (split TAB line)) (splitlines stdout).

(** * Properties *)

Example ex_int : int_opt " 1_0 " = Some 10 /\ int_opt "-07" = Some (-7)
                 /\ int_opt "1__0" = None /\ int_opt "" = None.
Proof. repeat split. Qed.

Example ex_str : str 20 = "20" /\ str 0 = "0" /\ str (-3) = "-3"
                 /\ zfill 2 (str 7) = "07" /\ zfill 2 (str 12) = "12".
Proof. repeat split. Qed.

Example ex_split : split " | " "a | b |  | c | " = ["a"; "b"; ""; "c"; ""].
Proof. reflexivity. Qed.

Example ex_search : search_job "warning: job 17 at Mon" = Some "job 17"
                    /\ search_job "job x job 3" = Some "job 3"
                    /\ search_job "no jobs" = None.
Proof. repeat split. Qed.

Example ex_today :
  today (clock_at 2024 2 29 23 59 58 7) = mkdt 2024 2 29 23 59 58 7
  /\ add_days (today (clock_at 2024 12 31 1 2 3 0)) 1 = Ok (mkdt 2025 1 1 1 2 3 0)
  /\ add_days (today (clock_at 2023 2 28 1 2 3 0)) 1 = Ok (mkdt 2023 3 1 1 2 3 0).
Proof. repeat split. Qed.

Example ex_strftime :
  strftime (mkdt 2024 6 5 7 8 9 0) "%Y-%m-%d %H:%M:%S" = "2024-06-05 07:08:09"
  /\ strftime (mkdt 2024 6 5 7 8 9 0) "%H%M%S" = "070809".
Proof. repeat split. Qed.

Example ex_strptime :
  strptime "2359" "%H%M" = Ok (mkdt 1900 1 1 23 59 0 0)
  /\ strptime "2400" "%H%M" = Raise ValueError
  /\ strptime "235960" "%H%M%S" = Raise ValueError
  /\ strptime "0229" "%m%d" = Raise ValueError
  /\ strptime "12 5" "%m%d" = Ok (mkdt 1900 12 5 0 0 0 0)
  /\ strptime "20240229" "%Y%m%d" = Ok (mkdt 2024 2 29 0 0 0 0)
  /\ strptime "2024-06-05 07:08:09" "%Y-%m-%d %H:%M:%S"
     = Ok (mkdt 2024 6 5 7 8 9 0).
Proof. repeat split. Qed.

Example ex_timedelta :
  str_timedelta (sub (mkdt 2024 6 7 1 0 0 0) (mkdt 2024 6 5 0 0 0 5))
  = "2 days, 0:59:59.999995".
Proof. reflexivity. Qed.

(** ** Strings *)

Lemma len_app (a b : string) : len (a ++ b) = (len a + len b)%nat.
Proof. induction a as [|c a IH]; simpl; [reflexivity | now rewrite <- IH]. Qed.

Lemma slice_to_app (a b : string) : slice_to (len a) (a ++ b) = a.
Proof. induction a as [|c a IH]; simpl; [now destruct b | now rewrite IH]. Qed.

Lemma slice_from_app (a b : string) : slice_from (len a) (a ++ b) = b.
Proof. induction a as [|c a IH]; simpl; [now destruct b | exact IH]. Qed.

Lemma slice_to_from (n : nat) (s : string) : slice_to n s ++ slice_from n s = s.
Proof.
  revert s; induction n as [|n IH]; intros [|c s]; simpl; try reflexivity.
  now rewrite IH.
Qed.

Lemma len_slice_to (n : nat) (s : string) :
  (n <= len s)%nat -> len (slice_to n s) = n.
Proof.
  revert s; induction n as [|n IH]; intros [|c s]; simpl; intros H;
    try reflexivity; try lia.
  rewrite IH; [reflexivity | lia].
Qed.

Lemma len_slice_from (n : nat) (s : string) :
  len (slice_from n s) = (len s - n)%nat.
Proof.
  revert s; induction n as [|n IH]; intros [|c s]; simpl; try reflexivity.
  apply IH.
Qed.

Lemma app_assoc_s (a b c : string) : (a ++ b) ++ c = a ++ b ++ c.
Proof. induction a as [|x a IH]; simpl; [reflexivity | now rewrite IH]. Qed.

Lemma app_empty_r (a : string) : a ++ "" = a.
Proof. induction a as [|x a IH]; simpl; [reflexivity | now rewrite IH]. Qed.

Lemma ascii_compare_refl (c : ascii) : Ascii.compare c c = Eq.
Proof. unfold Ascii.compare. apply N.compare_refl. Qed.

Lemma compare_app_prefix (p a b : string) :
  String.compare (p ++ a) (p ++ b) = String.compare a b.
Proof.
  induction p as [|c p IH]; simpl; [reflexivity|].
  now rewrite ascii_compare_refl.
Qed.

Lemma ltb_app_prefix (p a b : string) : (p ++ a <? p ++ b)%string = (a <? b)%string.
Proof. unfold String.ltb. now rewrite compare_app_prefix. Qed.

(** A bounded universal statement follows from a check of every case. *)
Lemma forall_below (P : Z -> bool) (n : nat) :
  forallb (fun k => P (Z.of_nat k)) (seq 0 n) = true ->
  forall z, 0 <= z < Z.of_nat n -> P z = true.
Proof.
  intros H z Hz. rewrite forallb_forall in H.
  specialize (H (Z.to_nat z)). rewrite Z2Nat.id in H by lia.
  apply H. apply in_seq. lia.
Qed.

Lemma forall_below2 (P : Z -> Z -> bool) (n m : nat) :
  forallb (fun a => forallb (fun b => P (Z.of_nat a) (Z.of_nat b)) (seq 0 m))
          (seq 0 n) = true ->
  forall x y, 0 <= x < Z.of_nat n -> 0 <= y < Z.of_nat m -> P x y = true.
Proof.
  intros H x y Hx Hy.
  apply (forall_below (fun a => forallb (fun b => P a (Z.of_nat b)) (seq 0 m)) n H)
    in Hx.
  exact (forall_below (P x) m Hx y Hy).
Qed.

(** ** Validation *)

(** C10. With the time or date argument absent, [valid_time] and
    [valid_date] answer false without raising, and every [add] invocation
    stops in [check_add]: it prints the complaint and the usage text and
    exits, with no command run and the ledger as it was. *)
Theorem C10_missing_time_is_rejected
  (shell : string -> string * string) (now : clock) (r : readings)
  (args : arguments) (w : world) :
  operation_ args = OpAdd -> time_ args = None ->
  valid_time None = false /\ valid_date None = false /\
  exists complaint,
    (complaint = "Invalid or missing time specification!"
     \/ complaint = "Invalid or missing date specification!")
    /\ main shell now r args w
       = (Raise SystemExit,
          mkworld (jobfile w) (commands w)
                  (Help :: Line complaint :: printed w)).
Proof.
  intros Hop Ht. split; [reflexivity | split; [reflexivity|]].
  unfold main, check_arguments, check_add. rewrite Hop, Ht.
  destruct (add_mode_ args); simpl.
  - exists "Invalid or missing time specification!". split; [now left | reflexivity].
  - exists "Invalid or missing time specification!". split; [now left | reflexivity].
  - exists "Invalid or missing date specification!". split; [now right | reflexivity].
Qed.

Lemma C10_missing_time_is_rejected_witness :
  valid_time None = false /\ valid_date None = false /\
  exists complaint,
    (complaint = "Invalid or missing time specification!"
     \/ complaint = "Invalid or missing date specification!")
    /\ main (fun _ => ("", "")) (clock_at 2024 6 15 12 0 30 0)
         (at_instant (clock_at 2024 6 15 12 0 30 0))
         (mkargs OpAdd ModeOn None false false 0 (Some "tea") false None)
         (mkworld None [] [])
       = (Raise SystemExit,
          mkworld None [] [Help; Line complaint]).
Proof.
  apply (C10_missing_time_is_rejected (fun _ => ("", ""))
           (clock_at 2024 6 15 12 0 30 0)
           (at_instant (clock_at 2024 6 15 12 0 30 0))
           (mkargs OpAdd ModeOn None false false 0 (Some "tea") false None)
           (mkworld None [] [])); reflexivity.
Defined.



(** ** Submission *)

Lemma add_at_without_identifier
  (shell : string -> string * string) (r : readings) (t : string)
  (sound prio : bool) (uptime : Z) (msg : string) (w : world) :
  (forall cmd,
     commands (snd (add_at shell r t sound prio uptime msg w))
     = cmd :: commands w ->
     search_job (snd (shell cmd)) = None) ->
  (exists e, fst (add_at shell r t sound prio uptime msg w) = Raise e)
  /\ jobfile (snd (add_at shell r t sound prio uptime msg w)) = jobfile w.
Proof.
  unfold add_at, bindM, lift, run.
  destruct (at_time_and_seconds_offset r t) as [[a o]|e]; simpl.
  2: { intros _. split; [now exists e | reflexivity]. }
  set (cmd := command_to_execute a o msg uptime _).
  destruct (search_job (snd (shell cmd))) as [m|] eqn:E; simpl.
  - intros H. exfalso.
    assert (search_job (snd (shell cmd)) = None) as N.
    { apply H. destruct (get_scheduled_time (r_sched r) a o); reflexivity. }
    congruence.
  - intros _. split; [now exists AttributeError | reflexivity].
Qed.

(** C7. When the diagnostic output of the command an [add] invocation runs
    holds no [job <digits>], the invocation ends in an exception and the
    ledger is what it was before: [write_job_to_file] is not reached. *)
Theorem C7_no_identifier_no_ledger_write
  (shell : string -> string * string) (r : readings) (mode : add_mode)
  (t : string) (sound prio : bool) (uptime : Z) (msg : string) (w : world) :
  (forall cmd,
     commands (snd (add_notification shell r mode t sound prio uptime msg w))
     = cmd :: commands w ->
     search_job (snd (shell cmd)) = None) ->
  (exists e,
     fst (add_notification shell r mode t sound prio uptime msg w) = Raise e)
  /\ ledger_after (add_notification shell r mode t sound prio uptime msg) w
     = jobfile w.
Proof.
  unfold ledger_after, add_notification.
  destruct mode.
  - apply add_at_without_identifier.
  - unfold add_in, bindM, lift.
    destruct (add_delta (r_delta r) t) as [target|e]; simpl.
    + apply add_at_without_identifier.
    + intros _. split; [now exists e | reflexivity].
  - unfold add_on. apply add_at_without_identifier.
Qed.

Lemma C7_no_identifier_no_ledger_write_witness :
  (exists e,
     fst (add_notification (fun _ => ("", "sh: 1: at: not found"))
            (at_instant (clock_at 2024 6 15 12 0 30 0)) ModeAt "1300"
            false false 0 "tea" (mkworld (Some "header") [] [])) = Raise e)
  /\ ledger_after
       (add_notification (fun _ => ("", "sh: 1: at: not found"))
          (at_instant (clock_at 2024 6 15 12 0 30 0)) ModeAt "1300"
          false false 0 "tea") (mkworld (Some "header") [] [])
     = Some "header".
Proof.
  apply (C7_no_identifier_no_ledger_write
           (fun _ => ("", "sh: 1: at: not found"))
           (at_instant (clock_at 2024 6 15 12 0 30 0)) ModeAt "1300"
           false false 0 "tea" (mkworld (Some "header") [] [])).
  intros cmd _. reflexivity.
Defined.

(** ** The [on] mode with a month and a day *)

(** What [add_on] hands on for a four-character date: the date itself,
    read as [HHMM], with the four zeros as the offset, or [now]; the year
    [prepend_year] computes is dropped. *)
Lemma on_mmdd_target (r : readings) (d : string) (p : string * string) :
  len d = 4%nat ->
  at_time_and_seconds_offset r (d ++ "0000") = Ok p ->
  p = (d, "0000") \/ fst p = "now".
Proof.
  intros Hd.
  pose proof (slice_to_app d "0000") as E1. rewrite Hd in E1.
  pose proof (slice_from_app d "0000") as E2. rewrite Hd in E2.
  unfold at_time_and_seconds_offset.
  rewrite E1, E2, len_app, Hd.
  change ((4 + len "0000" =? 8)%nat) with true.
  change ((4 + len "0000" =? 12)%nat) with false.
  change ((4 + len "0000" =? 4)%nat) with false.
  destruct (prepend_year (r_mmdd r) (r_yyyy r) (d ++ "0000"));
    cbn [bind]; [|discriminate].
  unfold change_if_targeting_current_minute.
  destruct (_ && _).
  - destruct (int "0000"); simpl; [|discriminate].
    destruct (int _); simpl; [|discriminate].
    intros E. injection E as <-. now right.
  - intros E. injection E as <-. now left.
Qed.

(** C1. At 10:00 on 15 June 2024 the request [on 1225] is not turned into
    an absolute target: [prepend_year] returns nothing for a date still to
    come, its value is dropped in any case, and the job goes to [at 1225],
    a clock time, with the offset text [0000]. *)
Theorem C1_on_mmdd_is_not_normalised :
  let now := clock_at 2024 6 15 10 0 0 0 in
  let w := mkworld None [] [] in
  let shell := fun _ : string => ("", "job 17 at Sat Jun 15 12:25:00 2024") in
  prepend_year now now ("1225" ++ "0000") = Ok None
  /\ at_time_and_seconds_offset (at_instant now) ("1225" ++ "0000")
     = Ok ("1225", "0000")
  /\ at_time_and_seconds_offset (at_instant now) ("20241225" ++ "0000")
     = Ok (" -t 202412250000", "00")
  /\ add_notification shell (at_instant now) ModeOn "1225" false false 0 "tea" w
     = (Ok tt,
        mkworld
          (Some ("JobID | Scheduled date & time | Seconds offset | Prioritized | Message"
                 ++ LF ++ "17 | 2024-06-15 12:25:00 | 0000 | No | tea" ++ LF))
          ["echo 'export DISPLAY=:0 && sleep 0000 && notify-send -t 0 "
           ++ DQUOTE ++ "tea" ++ DQUOTE ++ "' | at 1225"]
          []).
Proof. repeat split. Qed.

(** ** The scheduled instant of the ledger *)

(** C3. At 12:00:30 the request [at 120050] becomes the target [now] with
    offset 20, and [get_scheduled_time] writes 12:00:20 into the ledger:
    the offset, counted from now, is put in place of the seconds, while the
    job fires at 12:00:50.  The explicit form is parsed with a seconds
    field that the text does not have, so the two digits of a minute are
    read as a minute and a second: 12:30 becomes 12:03:00; only midnight,
    the form [add_on] produces, comes back as written. *)
Theorem C3_scheduled_time_of_now_is_not_the_firing_instant :
  let now := clock_at 2024 6 15 12 0 30 0 in
  let w := mkworld None [] [] in
  let shell := fun _ : string => ("", "job 17 at Sat Jun 15 12:00:00 2024") in
  at_time_and_seconds_offset (at_instant now) "120050" = Ok ("now", "20")
  /\ get_scheduled_time now "now" "20" = Ok "2024-06-15 12:00:20"
  /\ ledger_after
       (add_notification shell (at_instant now) ModeAt "120050" false false 0 "tea")
       w
     = Some ("JobID | Scheduled date & time | Seconds offset | Prioritized | Message"
             ++ LF ++ "17 | 2024-06-15 12:00:20 | 20 | No | tea" ++ LF)
  /\ get_scheduled_time now " -t 202512251230" "00" = Ok "2025-12-25 12:03:00"
  /\ get_scheduled_time now " -t 202512250000" "00" = Ok "2025-12-25 00:00:00".
Proof. repeat split. Qed.

(** The [HHMM] form on the same reading: today for a time not yet passed,
    tomorrow for an earlier one. *)
Example scheduled_time_hhmm :
  let now := clock_at 2024 6 30 12 0 30 0 in
  get_scheduled_time now "1300" "00" = Ok "2024-06-30 13:00:00"
  /\ get_scheduled_time now "1200" "45" = Ok "2024-06-30 12:00:45"
  /\ get_scheduled_time now "1159" "00" = Ok "2024-07-01 11:59:00".
Proof. repeat split. Qed.

(** ** The ledger row *)

(** C6. A message holding the separator does not survive the round trip:
    the row written for [a | b] is split at every separator and the pieces
    after the fourth are joined with nothing between them, so the message
    read back is [ab]. *)
Theorem C6_separator_in_message_is_lost :
  let now := clock_at 2024 6 15 12 0 30 0 in
  let w := snd (write_job_to_file "17" "2024-06-15 13:00:00" "00" true "a | b"
                  (mkworld None [] [])) in
  jobfile w
  = Some ("JobID | Scheduled date & time | Seconds offset | Prioritized | Message"
          ++ LF ++ "17 | 2024-06-15 13:00:00 | 00 | Yes | a | b" ++ LF)
  /\ fst (job_entries w) = Ok ["17 | 2024-06-15 13:00:00 | 00 | Yes | a | b" ++ LF]
  /\ job_line_into_output_fields now
       ("17 | 2024-06-15 13:00:00 | 00 | Yes | a | b" ++ LF)
     = Ok (mkentry "17" "2024-06-15 13:00:00" "00:59:30" "3570" "Yes" "ab").
Proof. repeat split. Qed.

(** A message without the separator and without trailing blanks comes
    back as written. *)
Example plain_message_round_trip :
  job_line_into_output_fields (clock_at 2024 6 15 12 0 30 0)
    ("17 | 2024-06-15 13:00:00 | 00 | No | tea at five" ++ LF)
  = Ok (mkentry "17" "2024-06-15 13:00:00" "00:59:30" "3570" "No" "tea at five").
Proof. reflexivity. Qed.

(** ** The order of the listing *)

Lemma insert_no (x : entry) (l : list entry) :
  e_prioritize x = "No" -> flagged l ->
  insert e_prioritize x l = x :: l.
Proof.
  intros Hx Hl. destruct l as [|y l]; [reflexivity|].
  simpl. rewrite Hx. inversion Hl as [|? ? [Hy|Hy] _]; subst; now rewrite Hy.
Qed.

Lemma insert_yes (x : entry) (nos yess : list entry) :
  e_prioritize x = "Yes" ->
  Forall (fun e => e_prioritize e = "No") nos ->
  Forall (fun e => e_prioritize e = "Yes") yess ->
  insert e_prioritize x (nos ++ yess)%list = (nos ++ x :: yess)%list.
Proof.
  intros Hx Hn Hy. induction Hn as [|n nos Hn _ IH]; simpl.
  - destruct yess as [|y yess]; [reflexivity|].
    simpl. inversion Hy as [|? ? E _]; subst. now rewrite Hx, E.
  - rewrite Hx, Hn. simpl. now rewrite IH.
Qed.

Lemma filter_flag (l : list entry) :
  flagged l ->
  Forall (fun e => e_prioritize e = "No") (filter is_no l)
  /\ Forall (fun e => e_prioritize e = "Yes") (filter is_yes l)
  /\ flagged (filter is_no l ++ filter is_yes l)%list.
Proof.
  unfold flagged. intros H. repeat split.
  - apply Forall_forall. intros e He. apply filter_In in He.
    now apply String.eqb_eq.
  - apply Forall_forall. intros e He. apply filter_In in He.
    now apply String.eqb_eq.
  - apply Forall_forall. intros e He. apply in_app_or in He.
    rewrite Forall_forall in H.
    destruct He as [He|He]; apply filter_In in He; now apply H.
Qed.

(** The ascending pass on the flag puts the [No] rows first, each group in
    its old order. *)
Lemma sort_flag (l : list entry) :
  flagged l -> sort e_prioritize l = (filter is_no l ++ filter is_yes l)%list.
Proof.
  induction 1 as [|x l Hx Hl IH]; [reflexivity|].
  simpl. rewrite IH. unfold is_no, is_yes.
  destruct (filter_flag l Hl) as (Hn & Hy & Hf).
  destruct Hx as [Hx|Hx]; rewrite Hx; simpl.
  - now apply insert_yes.
  - now apply insert_no.
Qed.

Lemma flagged_rev (l : list entry) : flagged l -> flagged (rev l).
Proof. apply Forall_rev. Qed.

(** The second pass of [get_notification_entries]: the prioritized rows
    come first, and each group keeps the order the first pass gave it. *)
Lemma priority_pass (l : list entry) :
  flagged l ->
  sort_reverse e_prioritize l = (filter is_yes l ++ filter is_no l)%list.
Proof.
  intros H. unfold sort_reverse.
  rewrite (sort_flag (rev l) (flagged_rev l H)).
  rewrite rev_app_distr, !filter_rev, !rev_involutive. reflexivity.
Qed.

Lemma sort_entries_priority (alphabetical : bool) (l : list entry) :
  flagged l ->
  let first_pass :=
    if alphabetical then sort e_message l else sort e_time_left_seconds l in
  sort_entries alphabetical l
  = (filter is_yes first_pass ++ filter is_no first_pass)%list.
Proof.
  intros H. unfold sort_entries. apply priority_pass.
  assert (forall key (k : list entry), flagged k -> flagged (sort key k)) as S.
  { intros key k Hk. induction Hk as [|x k' Hx _ IH]; simpl; [constructor|].
    clear - Hx IH. induction IH as [|y k'' Hy Hk IH]; simpl.
    - now constructor.
    - destruct (key y <? key x)%string.
      + now constructor.
      + constructor; [assumption | now constructor]. }
  destruct alphabetical; now apply S.
Qed.

(** C5. The first pass compares the seconds left as text, not as numbers:
    of two rows that are not prioritized, the one with 10 seconds left is
    listed before the one with 9 seconds left.  The pass on the priority
    does what the specification says: a prioritized row with 50 seconds
    left comes before a plain row with 10, in both modes. *)
Theorem C5_seconds_are_sorted_as_text :
  let now := clock_at 2024 6 15 12 0 30 0 in
  let nine := mkentry "1" "2024-06-15 12:00:39" "00:00:09" "9" "No" "a" in
  let ten := mkentry "2" "2024-06-15 12:00:40" "00:00:10" "10" "No" "b" in
  let fifty := mkentry "3" "2024-06-15 12:01:20" "00:00:50" "50" "Yes" "c" in
  mapM (job_line_into_output_fields now)
    ["1 | 2024-06-15 12:00:39 | 39 | No | a" ++ LF;
     "2 | 2024-06-15 12:00:40 | 40 | No | b" ++ LF]
  = Ok [nine; ten]
  /\ sort_entries false [nine; ten] = [ten; nine]
  /\ sort_entries false [ten; fifty] = [fifty; ten]
  /\ sort_entries true [ten; fifty] = [fifty; ten].
Proof. repeat split. Qed.

(** ** Two-digit fields *)

Lemma is_digit_cases (c : ascii) :
  is_digit c = true ->
  In c ["0"; "1"; "2"; "3"; "4"; "5"; "6"; "7"; "8"; "9"]%char.
Proof.
  destruct c as [[] [] [] [] [] [] [] []]; vm_compute; intros H;
    try discriminate; tauto.
Qed.

Lemma pad2_facts (n : Z) :
  0 <= n < 100 ->
  len (pad 2 n) = 2%nat /\ all_digits (pad 2 n) = true
  /\ int_opt (pad 2 n) = Some n /\ decimal (pad 2 n) = n
  /\ int_opt (str n) = Some n.
Proof.
  intros H.
  pose (P := fun n : Z =>
    (len (pad 2 n) =? 2)%nat && all_digits (pad 2 n)
    && match int_opt (pad 2 n) with Some v => v =? n | None => false end
    && (decimal (pad 2 n) =? n)
    && match int_opt (str n) with Some v => v =? n | None => false end).
  assert (P n = true) as HP.
  { apply (forall_below P 100); [vm_compute; reflexivity | lia]. }
  unfold P in HP. rewrite !andb_true_iff in HP.
  destruct HP as [[[[A B] C] D] E].
  apply Nat.eqb_eq in A. apply Z.eqb_eq in D.
  destruct (int_opt (pad 2 n)); [apply Z.eqb_eq in C | discriminate].
  destruct (int_opt (str n)); [apply Z.eqb_eq in E | discriminate].
  subst. repeat split; assumption.
Qed.

Lemma pad2_ltb (a b : Z) :
  0 <= a < 100 -> 0 <= b < 100 ->
  (pad 2 a <? pad 2 b)%string = (a <? b).
Proof.
  intros Ha Hb.
  pose (P := fun a b : Z => Bool.eqb (pad 2 a <? pad 2 b)%string (a <? b)).
  assert (P a b = true) as HP.
  { apply (forall_below2 P 100 100); [vm_compute; reflexivity | lia | lia]. }
  now apply Bool.eqb_prop in HP.
Qed.

(** A string of two digits is the padded text of its number. *)
Lemma two_digits_pad (s : string) :
  len s = 2%nat -> all_digits s = true ->
  s = pad 2 (decimal s) /\ 0 <= decimal s < 100.
Proof.
  destruct s as [|c1 [|c2 [|? ?]]]; try discriminate.
  intros _ H. simpl in H. rewrite andb_true_r in H.
  apply andb_true_iff in H. destruct H as [H1 H2].
  apply is_digit_cases in H1. apply is_digit_cases in H2.
  simpl in H1, H2.
  repeat (destruct H1 as [<-|H1]; [|]); try contradiction;
    repeat (destruct H2 as [<-|H2]; [|]); try contradiction;
    vm_compute; repeat split; discriminate.
Qed.

(** ** Decimal values *)

Lemma decimal_from_app (acc : Z) (a b : string) :
  decimal_from acc (a ++ b) = decimal_from (decimal_from acc a) b.
Proof. revert acc; induction a as [|c a IH]; intros acc; simpl; [reflexivity | apply IH]. Qed.

Lemma decimal_from_two (acc : Z) (s : string) :
  len s = 2%nat -> decimal_from acc s = acc * 100 + decimal s.
Proof.
  destruct s as [|c1 [|c2 [|? ?]]]; try discriminate.
  intros _. unfold decimal. cbn [decimal_from].
  generalize (digit_val c1), (digit_val c2). intros x y. lia.
Qed.

Lemma decimal_app_two (a b : string) :
  len b = 2%nat -> decimal (a ++ b) = decimal a * 100 + decimal b.
Proof.
  intros H. unfold decimal at 1. rewrite decimal_from_app.
  now rewrite decimal_from_two.
Qed.

Lemma all_digits_app (a b : string) :
  all_digits (a ++ b) = all_digits a && all_digits b.
Proof.
  induction a as [|c a IH]; simpl; [reflexivity|].
  now rewrite IH, andb_assoc.
Qed.

(** ** The wall clock *)

Lemma today_fields (now : clock) :
  hour (today now) = second_of_day now / 3600
  /\ minute (today now) = second_of_day now mod 3600 / 60
  /\ second (today now) = second_of_day now mod 60.
Proof.
  unfold today, localtime, second_of_day.
  destruct (ord2ymd _) as [[y m] d]. repeat split.
Qed.

Lemma today_ranges (now : clock) :
  0 <= hour (today now) < 24 /\ 0 <= minute (today now) < 60
  /\ 0 <= second (today now) < 60.
Proof.
  destruct (today_fields now) as (-> & -> & ->).
  assert (0 <= second_of_day now < 86400) as H
    by (unfold second_of_day; apply Z.mod_pos_bound; lia).
  repeat split.
  - apply Z.div_pos; lia.
  - apply Z.div_lt_upper_bound; lia.
  - apply Z.div_pos; [apply Z.mod_pos_bound|]; lia.
  - apply Z.div_lt_upper_bound; [lia | apply Z.mod_pos_bound; lia].
  - apply Z.mod_pos_bound; lia.
  - apply Z.mod_pos_bound; lia.
Qed.

Lemma strftime_hms (t : datetime) :
  strftime t "%H%M%S" = pad 2 (hour t) ++ pad 2 (minute t) ++ pad 2 (second t).
Proof. reflexivity. Qed.

(** The [HHMMSS] text of a reading: four digits of hour and minute, then
    the padded second. *)
Lemma hhmmss_split (now : clock) :
  exists hm,
    hhmmss now = hm ++ pad 2 (second (today now))
    /\ len hm = 4%nat /\ all_digits hm = true
    /\ hhmm now = hm
    /\ slice_from 4 (hhmmss now) = pad 2 (second (today now)).
Proof.
  destruct (today_ranges now) as (Hh & Hm & Hs).
  destruct (pad2_facts (hour (today now))) as (Lh & Dh & _); [lia|].
  destruct (pad2_facts (minute (today now))) as (Lm & Dm & _); [lia|].
  exists (pad 2 (hour (today now)) ++ pad 2 (minute (today now))).
  assert (len (pad 2 (hour (today now)) ++ pad 2 (minute (today now))) = 4%nat)
    as L by (rewrite len_app, Lh, Lm; reflexivity).
  assert (hhmmss now
          = (pad 2 (hour (today now)) ++ pad 2 (minute (today now)))
            ++ pad 2 (second (today now))) as E
    by (unfold hhmmss; rewrite strftime_hms, app_assoc_s; reflexivity).
  repeat split.
  - exact E.
  - exact L.
  - rewrite all_digits_app, Dh, Dm. reflexivity.
  - unfold hhmm. rewrite E, <- L. apply slice_to_app.
  - rewrite E, <- L. apply slice_from_app.
Qed.

(** ** The same-minute case *)

Lemma six_digit_target (r : readings) (t : string) :
  len t = 6%nat -> all_digits t = true ->
  at_time_and_seconds_offset r t =
    if (slice_to 4 t =? hhmm (r_minute r))%string
       && (decimal (hhmmss (r_minute r)) <? decimal t)
    then Ok ("now",
             str (decimal (slice_from 4 t) - second (today (r_minute r))))
    else Ok (slice_to 4 t, slice_from 4 t).
Proof.
  intros L D.
  unfold at_time_and_seconds_offset. rewrite L. cbn [Nat.eqb bind].
  unfold change_if_targeting_current_minute. fold (hhmmss (r_minute r)).
  fold (hhmm (r_minute r)).
  destruct (hhmmss_split (r_minute r)) as (hm & E & Lhm & Dhm & Ehm & Ess).
  rewrite Ess, Ehm.
  set (s := second (today (r_minute r))) in *.
  assert (0 <= s < 60) as Hs by (apply today_ranges).
  pose proof (slice_to_from 4 t) as Et.
  set (a := slice_to 4 t) in *. set (ss := slice_from 4 t) in *.
  assert (len a = 4%nat) as La
    by (unfold a; apply len_slice_to; rewrite L; lia).
  assert (len ss = 2%nat) as Lss
    by (unfold ss; rewrite len_slice_from, L; reflexivity).
  assert (all_digits ss = true) as Dss.
  { rewrite <- Et, all_digits_app in D. now apply andb_true_iff in D. }
  destruct (two_digits_pad ss Lss Dss) as (Ep & Hn).
  set (n := decimal ss) in *.
  destruct (pad2_facts n) as (_ & _ & In & _); [lia|].
  destruct (pad2_facts s) as (Ls & _ & Is & Ds & _); [lia|].
  destruct (String.eqb_spec a hm) as [Eq|Ne].
  - rewrite andb_true_r, andb_true_l.
    rewrite E, <- Et, Eq, ltb_app_prefix.
    rewrite !decimal_app_two by assumption.
    rewrite Ds. fold n.
    rewrite Ep at 1. rewrite pad2_ltb by lia.
    replace (decimal hm * 100 + s <? decimal hm * 100 + n) with (s <? n)
      by (destruct (Z.ltb_spec s n), (Z.ltb_spec (decimal hm * 100 + s)
            (decimal hm * 100 + n)); lia || reflexivity).
    destruct (s <? n); [|reflexivity].
    unfold int. rewrite Ep at 1. rewrite In, Is. reflexivity.
  - rewrite andb_false_r. reflexivity.
Qed.

(** C2. For a time of six digits, [at_time_and_seconds_offset] answers
    [now] with the offset [SS] minus the seconds elapsed in the current
    minute when the first four digits are the current [HHMM] and the six
    digits, as a number, exceed the current [HHMMSS]; in every other case
    it answers the four digits and the two digits as they are. *)
Theorem C2_same_minute (r : readings) (t : string) :
  len t = 6%nat -> all_digits t = true ->
  at_time_and_seconds_offset r t =
    if (slice_to 4 t =? hhmm (r_minute r))%string
       && (decimal (hhmmss (r_minute r)) <? decimal t)
    then Ok ("now",
             str (decimal (slice_from 4 t) - second (today (r_minute r))))
    else Ok (slice_to 4 t, slice_from 4 t).
Proof. exact (six_digit_target r t). Qed.

Lemma C2_same_minute_witness :
  at_time_and_seconds_offset (at_instant (clock_at 2024 6 15 12 0 30 0)) "120050"
  = Ok ("now", "20").
Proof.
  rewrite (C2_same_minute (at_instant (clock_at 2024 6 15 12 0 30 0)) "120050");
    reflexivity.
Defined.

(** ** What [strptime] accepts *)

Arguments slice_to : simpl never.
Arguments slice_from : simpl never.

Lemma cls_digit_sound (k : cls) (c : ascii) :
  cls_digit k = true -> cls_matches k c = true -> is_digit c = true.
Proof.
  destruct k as [|lo hi|c']; simpl; intros Hk Hm.
  - exact Hm.
  - unfold in_range in Hm. unfold is_digit in *.
    rewrite !andb_true_iff, !Z.leb_le in *. lia.
  - apply Ascii.eqb_eq in Hm. now subst.
Qed.

Lemma match_seq_sound (alt : list cls) (s g rest : string) :
  match_seq alt s = Some (g, rest) ->
  s = g ++ rest /\ len g = List.length alt
  /\ (forallb cls_digit alt = true -> all_digits g = true).
Proof.
  revert s g rest. induction alt as [|k alt IH]; intros s g rest; simpl.
  - intros E. injection E as <- <-. repeat split.
  - destruct s as [|c s]; [discriminate|].
    destruct (cls_matches k c) eqn:Hk; [|discriminate].
    destruct (match_seq alt s) as [[g' rest']|] eqn:Hs; [|discriminate].
    intros E. injection E as <- <-.
    destruct (IH _ _ _ Hs) as (-> & L & D). repeat split.
    + simpl. now rewrite L.
    + intros H. apply andb_true_iff in H. destruct H as [H1 H2].
      simpl. rewrite (cls_digit_sound k c H1 Hk). now apply D.
Qed.

Lemma match_items_sound (ds : list directive) (s : string)
  (g : groups) (rest : string) :
  In (g, rest) (match_items (map Dir ds) s) ->
  s = texts g ++ rest /\ Forall2 group_of ds g.
Proof.
  revert s g rest. induction ds as [|d ds IH]; intros s g rest; simpl.
  - intros [E|[]]. injection E as <- <-. split; [reflexivity | constructor].
  - intros H. apply in_flat_map in H. destruct H as (alt & Halt & H).
    destruct (match_seq alt s) as [[g1 r1]|] eqn:Hs; [|contradiction].
    apply in_map_iff in H. destruct H as ([g' rest'] & E & H).
    simpl in E. injection E as <- <-.
    destruct (IH _ _ _ H) as (E' & F).
    destruct (match_seq_sound _ _ _ _ Hs) as (-> & L & D).
    split.
    + simpl. rewrite E'. now rewrite app_assoc_s.
    + constructor; [|exact F].
      split; [reflexivity|]. exists alt. repeat split; assumption.
Qed.

Lemma strptime_groups (ds : list directive) (s f : string) (dt : datetime) :
  parse_format f = map Dir ds ->
  strptime s f = Ok dt ->
  exists g, s = texts g /\ Forall2 group_of ds g
            /\ fill g 1900 1 1 0 0 0 = Ok dt.
Proof.
  intros Hf. unfold strptime, re_match. rewrite Hf.
  destruct (match_items (map Dir ds) s) as [|[g rest] l] eqn:E; simpl;
    [discriminate|].
  destruct (String.eqb_spec rest "") as [->|_]; [|discriminate].
  intros H. exists g.
  destruct (match_items_sound ds s g "") as (Es & F).
  { rewrite E. now left. }
  rewrite app_empty_r in Es. repeat split; assumption.
Qed.

(** The groups of an hour, a minute or a second are one or two digits. *)
Lemma clock_group (d : directive) (p : directive * string) :
  d = dH \/ d = dM \/ d = dS ->
  group_of d p ->
  all_digits (snd p) = true /\ (len (snd p) = 1%nat \/ len (snd p) = 2%nat).
Proof.
  intros Hd (_ & alt & Halt & L & D).
  destruct Hd as [->|[->| ->]]; simpl in Halt;
    repeat (destruct Halt as [<-|Halt]; [split; [now apply D | simpl in L; tauto]|]);
    contradiction.
Qed.

Lemma int_two_digits (s : string) :
  len s = 2%nat -> all_digits s = true ->
  int s = Ok (decimal s) /\ 0 <= decimal s < 100.
Proof.
  intros L D. destruct (two_digits_pad s L D) as (E & H).
  split; [|exact H].
  destruct (pad2_facts (decimal s) H) as (_ & _ & I & _).
  unfold int. rewrite E at 1. now rewrite I.
Qed.

Lemma new_ok (y m d H M S us : Z) (dt : datetime) :
  new y m d H M S us = Ok dt ->
  0 <= H <= 23 /\ 0 <= M <= 59 /\ 0 <= S <= 59.
Proof.
  unfold new. destruct (fields_ok y m d H M S us) eqn:F; [|discriminate].
  intros _. unfold fields_ok in F.
  rewrite !andb_true_iff, !Z.leb_le in F. lia.
Qed.

(** What [valid_time] accepts: four or six digits, and in the second case
    a last pair that is at most 59. *)
Lemma valid_time_inv (s : string) :
  valid_time (Some s) = true ->
  all_digits s = true
  /\ (len s = 4%nat \/ (len s = 6%nat /\ decimal (slice_from 4 s) <= 59)).
Proof.
  unfold valid_time.
  destruct (Nat.eqb_spec (len s) 4) as [L4|_].
  - destruct (strptime s "%H%M") as [dt|] eqn:E; [intros _ | discriminate].
    apply (strptime_groups [dH; dM]) in E; [|reflexivity].
    destruct E as (g & Es & F & _).
    inversion F as [|? p1 ? g1 G1 F1]; subst.
    inversion F1 as [|? p2 ? g2 G2 F2]; subst.
    inversion F2; subst.
    apply clock_group in G1; [|tauto]. apply clock_group in G2; [|tauto].
    destruct p1 as [d1 t1], p2 as [d2 t2]. simpl in *.
    split; [|now left].
    rewrite !all_digits_app. destruct G1 as [-> _], G2 as [-> _]. reflexivity.
  - destruct (Nat.eqb_spec (len s) 6) as [L6|_]; [|discriminate].
    destruct (strptime s "%H%M%S") as [dt|] eqn:E; [intros _ | discriminate].
    apply (strptime_groups [dH; dM; dS]) in E; [|reflexivity].
    destruct E as (g & Es & F & Fill).
    inversion F as [|? p1 ? g1 G1 F1]; subst.
    inversion F1 as [|? p2 ? g2 G2 F2]; subst.
    inversion F2 as [|? p3 ? g3 G3 F3]; subst.
    inversion F3; subst.
    pose proof G1 as [E1 _]. pose proof G2 as [E2 _]. pose proof G3 as [E3 _].
    apply clock_group in G1; [|tauto]. apply clock_group in G2; [|tauto].
    apply clock_group in G3; [|tauto].
    destruct p1 as [d1 t1], p2 as [d2 t2], p3 as [d3 t3]. simpl in *. subst.
    destruct G1 as [D1 L1], G2 as [D2 L2], G3 as [D3 L3].
    rewrite !len_app in L6. simpl in L6.
    assert (len t1 = 2%nat /\ len t2 = 2%nat /\ len t3 = 2%nat)
      as (K1 & K2 & K3) by lia.
    split.
    + rewrite !all_digits_app, D1, D2, D3. reflexivity.
    + right. split; [rewrite !len_app; simpl; lia|].
      assert (slice_from 4 (t1 ++ t2 ++ t3 ++ "") = t3) as ->.
      { rewrite app_empty_r, <- app_assoc_s.
        replace 4%nat with (len (t1 ++ t2)) by (rewrite len_app; lia).
        apply slice_from_app. }
      destruct (int_two_digits t1 K1 D1) as (I1 & _).
      destruct (int_two_digits t2 K2 D2) as (I2 & _).
      destruct (int_two_digits t3 K3 D3) as (I3 & _).
      rewrite I1, I2, I3 in Fill. cbn [bind] in Fill.
      apply new_ok in Fill. lia.
Qed.


(** ** The range of the offset *)



(** The text of an hour, a minute and a second. *)
Lemma hms_text (h m s : Z) :
  0 <= h < 24 -> 0 <= m < 60 -> 0 <= s < 60 ->
  let t := pad 2 h ++ pad 2 m ++ pad 2 s in
  len t = 6%nat /\ all_digits t = true /\ decimal (slice_from 4 t) = s.
Proof.
  intros Hh Hm Hs t.
  destruct (pad2_facts h) as (Lh & Dh & _); [lia|].
  destruct (pad2_facts m) as (Lm & Dm & _); [lia|].
  destruct (pad2_facts s) as (Ls & Dg & _ & Ds & _); [lia|].
  unfold t. repeat split.
  - rewrite !len_app, Lh, Lm, Ls. reflexivity.
  - rewrite !all_digits_app, Dh, Dm, Dg. reflexivity.
  - rewrite <- app_assoc_s.
    replace 4%nat with (len (pad 2 h ++ pad 2 m))
      by (rewrite len_app, Lh, Lm; reflexivity).
    now rewrite slice_from_app.
Qed.

Lemma localtime_ranges (now : clock) (x : Z) :
  0 <= hour (localtime now x) < 24 /\ 0 <= minute (localtime now x) < 60
  /\ 0 <= second (localtime now x) < 60.
Proof.
  unfold localtime. destruct (ord2ymd _) as [[y m] d]. simpl.
  assert (0 <= (x + utcoff now) mod 86400 < 86400) as H
    by (apply Z.mod_pos_bound; lia).
  repeat split.
  - apply Z.div_pos; lia.
  - apply Z.div_lt_upper_bound; lia.
  - apply Z.div_pos; [apply Z.mod_pos_bound|]; lia.
  - apply Z.div_lt_upper_bound; [lia | apply Z.mod_pos_bound; lia].
  - apply Z.mod_pos_bound; lia.
  - apply Z.mod_pos_bound; lia.
Qed.

Lemma all_digits_slice_to (n : nat) (s : string) :
  all_digits s = true -> all_digits (slice_to n s) = true.
Proof.
  revert s. induction n as [|n IH]; intros [|c s]; try reflexivity.
  intros H. change (is_digit c && all_digits (slice_to n s) = true).
  change (is_digit c && all_digits s = true) in H.
  apply andb_true_iff in H. destruct H as [-> H]. now apply IH.
Qed.

Lemma all_digits_slice_from (n : nat) (s : string) :
  all_digits s = true -> all_digits (slice_from n s) = true.
Proof.
  revert s. induction n as [|n IH]; intros [|c s]; try (intros H; exact H).
  intros H. change (all_digits (slice_from n s) = true).
  change (is_digit c && all_digits s = true) in H.
  apply andb_true_iff in H. destruct H as [_ H]. now apply IH.
Qed.

(** [parse_time_to_seconds] on six digits: hours, minutes and seconds
    added up in seconds. *)
Lemma parse_six (t : string) :
  len t = 6%nat -> all_digits t = true ->
  parse_time_to_seconds t
  = Ok (decimal (slice_to 2 t) * 3600 + decimal (slice 2 4 t) * 60
        + decimal (slice_from 4 t)).
Proof.
  intros L D. unfold parse_time_to_seconds. rewrite L. cbn [Nat.eqb].
  assert (len (slice_to 2 t) = 2%nat) as L1
    by (apply len_slice_to; rewrite L; lia).
  assert (len (slice 2 4 t) = 2%nat) as L2.
  { unfold slice. rewrite len_slice_from, len_slice_to; [reflexivity|].
    rewrite L. lia. }
  assert (len (slice_from 4 t) = 2%nat) as L3
    by (rewrite len_slice_from, L; reflexivity).
  destruct (int_two_digits _ L1 (all_digits_slice_to 2 t D)) as (-> & _).
  destruct (int_two_digits _ L2
              (all_digits_slice_from 2 _ (all_digits_slice_to 4 t D)))
    as (-> & _).
  destruct (int_two_digits _ L3 (all_digits_slice_from 4 t D)) as (-> & _).
  reflexivity.
Qed.

Lemma parse_ok (t : string) :
  all_digits t = true -> len t = 4%nat \/ len t = 6%nat ->
  exists d, parse_time_to_seconds t = Ok d.
Proof.
  intros D [L|L].
  - assert (len (t ++ "00") = 6%nat) as L' by (rewrite len_app, L; reflexivity).
    assert (all_digits (t ++ "00") = true) as D'
      by (rewrite all_digits_app, D; reflexivity).
    pose proof (parse_six _ L' D') as P.
    unfold parse_time_to_seconds in *. rewrite L. rewrite L' in P.
    cbn [Nat.eqb] in *. eexists. exact P.
  - eexists. now apply parse_six.
Qed.








(** [add_notification] computes the schedule and submits it. *)
Lemma add_notification_schedule
  (shell : string -> string * string) (r : readings) (mode : add_mode)
  (t : string) (sound prio : bool) (uptime : Z) (msg : string) (w : world) :
  add_notification shell r mode t sound prio uptime msg w
  = match schedule r mode t with
    | Ok p => submit shell r p sound prio uptime msg w
    | Raise e => (Raise e, w)
    end.
Proof.
  unfold add_notification, add_in, add_on, add_at, schedule, submit, bindM, lift.
  destruct mode.
  - destruct (at_time_and_seconds_offset r t); reflexivity.
  - destruct (add_delta (r_delta r) t); cbn [bind]; [|reflexivity].
    destruct (at_time_and_seconds_offset r a); reflexivity.
  - destruct (at_time_and_seconds_offset r (t ++ "0000")); reflexivity.
Qed.




(** ** The [in] mode *)

Lemma localtime_fields (now : clock) (x : Z) :
  hour (localtime now x) = (x + utcoff now) mod 86400 / 3600
  /\ minute (localtime now x) = (x + utcoff now) mod 86400 mod 3600 / 60
  /\ second (localtime now x) = (x + utcoff now) mod 86400 mod 60.
Proof.
  unfold localtime. destruct (ord2ymd _) as [[y m] d]. repeat split.
Qed.

(** The clock time [d] seconds after a reading is the [HHMMSS] text of
    the later reading. *)
Lemma localtime_later (now : clock) (d : Z) :
  0 <= epoch_us now ->
  strftime (localtime now (time_time now + d)) "%H%M%S" = hhmmss (later now d).
Proof.
  intros H. unfold hhmmss. rewrite !strftime_hms.
  destruct (localtime_fields now (time_time now + d)) as (-> & -> & ->).
  destruct (today_fields (later now d)) as (-> & -> & ->).
  unfold second_of_day, later, time_time. cbn [epoch_us utcoff].
  rewrite Z.quot_div_nonneg by lia.
  rewrite Z.div_add by lia. reflexivity.
Qed.

(** C4. At one instant, with a delay of six digits that [valid_time]
    accepts: the delay is [H*3600 + M*60 + S] seconds, [add_delta] turns it
    into the clock time that many seconds after now, and the [in] mode does
    what the [at] mode does on that clock time, so the two write the same
    ledger row, with the same scheduled instant. *)
Theorem C4_in_is_at_of_the_later_clock_time
  (shell : string -> string * string) (now : clock) (delay : string)
  (sound prio : bool) (uptime : Z) (msg : string) (w : world) :
  0 <= epoch_us now ->
  len delay = 6%nat -> valid_time (Some delay) = true ->
  let seconds :=
    decimal (slice_to 2 delay) * 3600 + decimal (slice 2 4 delay) * 60
    + decimal (slice_from 4 delay) in
  parse_time_to_seconds delay = Ok seconds
  /\ add_delta now delay = Ok (hhmmss (later now seconds))
  /\ add_notification shell (at_instant now) ModeIn delay
       sound prio uptime msg w
     = add_notification shell (at_instant now) ModeAt
         (hhmmss (later now seconds)) sound prio uptime msg w.
Proof.
  intros He L V seconds.
  destruct (valid_time_inv delay V) as (D & _).
  pose proof (parse_six delay L D) as P. fold seconds in P.
  assert (add_delta now delay = Ok (hhmmss (later now seconds))) as A.
  { unfold add_delta. rewrite P. cbn [bind].
    now rewrite localtime_later. }
  repeat split; try assumption.
  unfold add_notification, add_in, bindM, lift. cbn [r_delta at_instant].
  now rewrite A.
Qed.

Lemma C4_in_is_at_of_the_later_clock_time_witness :
  parse_time_to_seconds "000005" = Ok 5
  /\ add_delta (clock_at 2024 6 15 12 0 30 0) "000005" = Ok "120035"
  /\ add_notification (fun _ => ("", "job 17 at Sat Jun 15 12:00:00 2024"))
       (at_instant (clock_at 2024 6 15 12 0 30 0)) ModeIn "000005"
       false false 0 "tea" (mkworld None [] [])
     = add_notification (fun _ => ("", "job 17 at Sat Jun 15 12:00:00 2024"))
         (at_instant (clock_at 2024 6 15 12 0 30 0)) ModeAt "120035"
         false false 0 "tea" (mkworld None [] []).
Proof.
  apply (C4_in_is_at_of_the_later_clock_time
           (fun _ => ("", "job 17 at Sat Jun 15 12:00:00 2024"))
           (clock_at 2024 6 15 12 0 30 0) "000005" false false 0 "tea"
           (mkworld None [] [])).
  - vm_compute. discriminate.
  - reflexivity.
  - reflexivity.
Defined.

(** * Further properties of the code *)

(** ** The times [valid_time] accepts *)

Lemma slice_to_all (n : nat) (s : string) :
  (len s <= n)%nat -> slice_to n s = s.
Proof.
  revert s. induction n as [|n IH]; intros [|c s] H; try reflexivity.
  - simpl in H. lia.
  - change (String c (slice_to n s) = String c s). rewrite IH; [reflexivity|].
    simpl in H. lia.
Qed.

Lemma slice_to_slice_to (n m : nat) (s : string) :
  (n <= m)%nat -> slice_to n (slice_to m s) = slice_to n s.
Proof.
  revert m s. induction n as [|n IH]; intros m s H.
  - now destruct (slice_to m s), s.
  - destruct m as [|m]; [lia|]. destruct s as [|c s]; [reflexivity|].
    change (String c (slice_to n (slice_to m s)) = String c (slice_to n s)).
    rewrite IH; [reflexivity | lia].
Qed.

(** A text of four or six characters, cut into pairs. *)
Lemma pairs_of (s : string) :
  (4 <= len s)%nat ->
  s = slice_to 2 s ++ slice 2 4 s ++ slice_from 4 s
  /\ len (slice_to 2 s) = 2%nat /\ len (slice 2 4 s) = 2%nat
  /\ len (slice_from 4 s) = (len s - 4)%nat.
Proof.
  intros L. repeat split.
  - rewrite <- app_assoc_s. unfold slice.
    rewrite <- (slice_to_slice_to 2 4 s) by lia.
    now rewrite !slice_to_from.
  - apply len_slice_to. lia.
  - unfold slice. rewrite len_slice_from, len_slice_to; [reflexivity | lia].
  - apply len_slice_from.
Qed.


Lemma hms_accepted (h m s : Z) :
  0 <= h < 24 -> 0 <= m < 60 -> 0 <= s < 60 ->
  valid_time (Some (pad 2 h ++ pad 2 m ++ pad 2 s)) = true.
Proof.
  intros Hh Hm Hs.
  pose (P := fun h n : Z =>
    valid_time (Some (pad 2 h ++ pad 2 (n / 60) ++ pad 2 (n mod 60)))).
  assert (P h (m * 60 + s) = true) as HP.
  { apply (forall_below2 P 24 (Z.to_nat 3600));
      [vm_compute; reflexivity | lia | rewrite Z2Nat.id; lia]. }
  unfold P in HP.
  replace ((m * 60 + s) / 60) with m in HP
    by (rewrite Z.div_add_l, Z.div_small; lia).
  replace ((m * 60 + s) mod 60) with s in HP
    by (rewrite Z.add_comm, Z.mod_add, Z.mod_small; lia).
  exact HP.
Qed.

(** The groups of a clock format are pairs when they cover a text of twice
    their number of characters. *)
Lemma clock_groups_fields (s : string) (f : string) (dt : datetime) :
  (f = "%H%M" /\ len s = 4%nat) \/ (f = "%H%M%S" /\ len s = 6%nat) ->
  strptime s f = Ok dt ->
  clock_fields_ok s = true.
Proof.
  intros [[-> L]|[-> L]] E.
  - apply (strptime_groups [dH; dM]) in E; [|reflexivity].
    destruct E as (g & Es & F & Fill).
    inversion F as [|? p1 ? g1 G1 F1]; subst.
    inversion F1 as [|? p2 ? g2 G2 F2]; subst.
    inversion F2; subst.
    pose proof G1 as [E1 _]. pose proof G2 as [E2 _].
    apply clock_group in G1; [|tauto]. apply clock_group in G2; [|tauto].
    destruct p1 as [d1 t1], p2 as [d2 t2]. simpl in *. subst.
    destruct G1 as [D1 L1], G2 as [D2 L2].
    rewrite !len_app in L. simpl in L.
    assert (len t1 = 2%nat /\ len t2 = 2%nat) as (K1 & K2) by lia.
    destruct (int_two_digits t1 K1 D1) as (I1 & _).
    destruct (int_two_digits t2 K2 D2) as (I2 & _).
    rewrite I1, I2 in Fill. cbn [bind] in Fill. apply new_ok in Fill.
    rewrite app_empty_r. unfold clock_fields_ok, slice.
    rewrite (slice_to_all 4) by (rewrite len_app; lia).
    rewrite <- K1 at 1 2. rewrite slice_to_app, slice_from_app.
    rewrite all_digits_app, D1, D2, len_app, K1, K2.
    destruct (Z.leb_spec (decimal t1) 23), (Z.leb_spec (decimal t2) 59);
      try lia. reflexivity.
  - apply (strptime_groups [dH; dM; dS]) in E; [|reflexivity].
    destruct E as (g & Es & F & Fill).
    inversion F as [|? p1 ? g1 G1 F1]; subst.
    inversion F1 as [|? p2 ? g2 G2 F2]; subst.
    inversion F2 as [|? p3 ? g3 G3 F3]; subst.
    inversion F3; subst.
    pose proof G1 as [E1 _]. pose proof G2 as [E2 _]. pose proof G3 as [E3 _].
    apply clock_group in G1; [|tauto]. apply clock_group in G2; [|tauto].
    apply clock_group in G3; [|tauto].
    destruct p1 as [d1 t1], p2 as [d2 t2], p3 as [d3 t3]. simpl in *. subst.
    destruct G1 as [D1 L1], G2 as [D2 L2], G3 as [D3 L3].
    rewrite !len_app in L. simpl in L.
    assert (len t1 = 2%nat /\ len t2 = 2%nat /\ len t3 = 2%nat)
      as (K1 & K2 & K3) by lia.
    destruct (int_two_digits t1 K1 D1) as (I1 & _).
    destruct (int_two_digits t2 K2 D2) as (I2 & _).
    destruct (int_two_digits t3 K3 D3) as (I3 & _).
    rewrite I1, I2, I3 in Fill. cbn [bind] in Fill. apply new_ok in Fill.
    rewrite app_empty_r. unfold clock_fields_ok, slice.
    assert (slice_to 4 (t1 ++ t2 ++ t3) = t1 ++ t2) as ->.
    { rewrite <- app_assoc_s.
      replace 4%nat with (len (t1 ++ t2)) by (rewrite len_app; lia).
      apply slice_to_app. }
    assert (slice_from 4 (t1 ++ t2 ++ t3) = t3) as ->.
    { rewrite <- app_assoc_s.
      replace 4%nat with (len (t1 ++ t2)) by (rewrite len_app; lia).
      apply slice_from_app. }
    rewrite <- K1 at 1 2. rewrite slice_to_app, slice_from_app.
    rewrite !all_digits_app, D1, D2, D3, !len_app, K1, K2, K3.
    destruct (Z.leb_spec (decimal t1) 23), (Z.leb_spec (decimal t2) 59),
      (Z.leb_spec (decimal t3) 59); try lia. reflexivity.
Qed.


Lemma valid_time_fields (s : string) :
  valid_time (Some s) = true -> clock_fields_ok s = true.
Proof.
  unfold valid_time.
  destruct (Nat.eqb_spec (len s) 4) as [L4|_].
  - destruct (strptime s "%H%M") as [dt|] eqn:E; [intros _ | discriminate].
    apply (clock_groups_fields s "%H%M" dt); [tauto | exact E].
  - destruct (Nat.eqb_spec (len s) 6) as [L6|_]; [|discriminate].
    destruct (strptime s "%H%M%S") as [dt|] eqn:E; [intros _ | discriminate].
    apply (clock_groups_fields s "%H%M%S" dt); [tauto | exact E].
Qed.

(** ** The dates [valid_date] accepts *)

(** X2. On four digits [valid_date] accepts exactly the months 01 to 12
    with a day of that month in a common year: the 29th of February is
    never accepted in this form. *)
Theorem valid_date_mmdd (s : string) :
  len s = 4%nat -> all_digits s = true ->
  valid_date (Some s) = month_day_ok s.
Proof.
  intros L D.
  pose proof (slice_to_from 2 s) as Es.
  assert (len (slice_to 2 s) = 2%nat) as K1
    by (apply len_slice_to; rewrite L; lia).
  assert (len (slice_from 2 s) = 2%nat) as K2
    by (rewrite len_slice_from, L; reflexivity).
  destruct (two_digits_pad _ K1 (all_digits_slice_to 2 s D)) as (P1 & B1).
  destruct (two_digits_pad _ K2 (all_digits_slice_from 2 s D)) as (P2 & B2).
  pose (P := fun a b : Z =>
    Bool.eqb (valid_date (Some (pad 2 a ++ pad 2 b)))
             (month_day_ok (pad 2 a ++ pad 2 b))).
  assert (P (decimal (slice_to 2 s)) (decimal (slice_from 2 s)) = true) as HP.
  { apply (forall_below2 P 100 100); [vm_compute; reflexivity | lia | lia]. }
  unfold P in HP. rewrite <- P1, <- P2, Es in HP.
  now apply Bool.eqb_prop in HP.
Qed.

Lemma valid_date_mmdd_witness :
  valid_date (Some "0229") = false /\ valid_date (Some "0228") = true.
Proof.
  split.
  - rewrite (valid_date_mmdd "0229"); reflexivity.
  - rewrite (valid_date_mmdd "0228"); reflexivity.
Defined.

(** ** Delays *)

Lemma slice_to_app_le (n : nat) (a b : string) :
  (n <= len a)%nat -> slice_to n (a ++ b) = slice_to n a.
Proof.
  revert a. induction n as [|n IH]; intros [|c a] H.
  - now destruct b.
  - reflexivity.
  - simpl in H. lia.
  - change (String c (slice_to n (a ++ b)) = String c (slice_to n a)).
    rewrite IH; [reflexivity | simpl in H; lia].
Qed.

(** X3. For a time that [valid_time] accepts, [parse_time_to_seconds]
    returns the hours, minutes and seconds added up in seconds (no seconds
    for four digits), a number below 86400. *)
Theorem parse_time_to_seconds_valid (t : string) :
  valid_time (Some t) = true ->
  exists d,
    parse_time_to_seconds t = Ok d
    /\ d = decimal (slice_to 2 t) * 3600 + decimal (slice 2 4 t) * 60
           + decimal (slice_from 4 t)
    /\ 0 <= d < 86400.
Proof.
  intros V. apply valid_time_fields in V.
  unfold clock_fields_ok in V. rewrite !andb_true_iff in V.
  destruct V as [[[D H] M] S]. apply Z.leb_le in H, M.
  apply orb_true_iff in S. destruct S as [S|S].
  - apply Nat.eqb_eq in S.
    assert (len (t ++ "00") = 6%nat) as L' by (rewrite len_app, S; reflexivity).
    assert (all_digits (t ++ "00") = true) as D'
      by (rewrite all_digits_app, D; reflexivity).
    pose proof (parse_six _ L' D') as P.
    unfold parse_time_to_seconds in *. rewrite S. rewrite L' in P.
    cbn [Nat.eqb] in *. rewrite P. eexists. split; [reflexivity|].
    assert (slice_to 2 (t ++ "00") = slice_to 2 t) as A1
      by (apply slice_to_app_le; rewrite S; lia).
    assert (slice 2 4 (t ++ "00") = slice 2 4 t) as A2
      by (unfold slice; rewrite slice_to_app_le; [reflexivity | rewrite S; lia]).
    assert (slice_from 4 (t ++ "00") = "00") as A3
      by (rewrite <- S; apply slice_from_app).
    assert (slice_from 4 t = "") as A4.
    { pose proof (len_slice_from 4 t) as Q. rewrite S in Q.
      now destruct (slice_from 4 t). }
    rewrite A1, A2, A3, A4.
    change (decimal "00") with 0. change (decimal "") with 0.
    destruct (pairs_of t) as (_ & K1 & K2 & _); [lia|].
    destruct (two_digits_pad _ K1 (all_digits_slice_to 2 t D)) as (_ & B1).
    destruct (two_digits_pad _ K2
                (all_digits_slice_from 2 _ (all_digits_slice_to 4 t D)))
      as (_ & B2).
    split; [reflexivity | lia].
  - apply andb_true_iff in S. destruct S as [S S'].
    apply Nat.eqb_eq in S. apply Z.leb_le in S'.
    rewrite (parse_six t S D). eexists. split; [reflexivity|].
    split; [reflexivity|].
    destruct (pairs_of t) as (_ & K1 & K2 & K3); [lia|]. rewrite S in K3.
    pose proof D as D'. rewrite (proj1 (pairs_of t ltac:(lia))) in D'.
    rewrite !all_digits_app, !andb_true_iff in D'. destruct D' as (D1 & D2 & D3).
    destruct (two_digits_pad _ K1 D1) as (_ & B1).
    destruct (two_digits_pad _ K2 D2) as (_ & B2).
    destruct (two_digits_pad _ K3 D3) as (_ & B3).
    lia.
Qed.

Lemma parse_time_to_seconds_valid_witness :
  exists d,
    parse_time_to_seconds "0130" = Ok d
    /\ d = decimal (slice_to 2 "0130") * 3600 + decimal (slice 2 4 "0130") * 60
           + decimal (slice_from 4 "0130")
    /\ 0 <= d < 86400.
Proof. apply (parse_time_to_seconds_valid "0130"). reflexivity. Defined.

(** X4. For a delay that [valid_time] accepts, [add_delta] returns six
    characters that [valid_time] accepts in turn: the [in] mode always
    hands a well-formed clock time to [add_at]. *)
Theorem add_delta_valid (now : clock) (t : string) :
  valid_time (Some t) = true ->
  exists target,
    add_delta now t = Ok target
    /\ len target = 6%nat /\ valid_time (Some target) = true.
Proof.
  intros V.
  destruct (valid_time_inv t V) as (D & L).
  destruct (parse_ok t D) as (d & Hd); [tauto|].
  unfold add_delta. rewrite Hd. cbn [bind].
  eexists. split; [reflexivity|].
  rewrite strftime_hms.
  destruct (localtime_ranges now (time_time now + d)) as (Hh & Hm & Hs).
  destruct (hms_text _ _ _ Hh Hm Hs) as (L6 & _).
  split; [exact L6 | now apply hms_accepted].
Qed.

Lemma add_delta_valid_witness :
  exists target,
    add_delta (clock_at 2024 6 15 23 59 58 0) "000005" = Ok target
    /\ len target = 6%nat /\ valid_time (Some target) = true.
Proof.
  apply (add_delta_valid (clock_at 2024 6 15 23 59 58 0) "000005").
  reflexivity.
Defined.

(** ** The checks of the arguments *)

(** X5. [check_add] returns, with nothing printed, exactly for a valid
    time (modes [at] and [in]) or a valid date that is not past (mode
    [on]) together with a message; otherwise it prints and exits.  In both
    cases no command is run and the ledger is not touched. *)
Theorem check_add_spec (now : clock) (args : arguments) (w : world) :
  if add_accepted now args
  then check_add now args w = (Ok tt, w)
  else exists out,
         out <> []
         /\ check_add now args w
            = (Raise SystemExit,
               mkworld (jobfile w) (commands w) (out ++ printed w)%list).
Proof.
  unfold add_accepted, check_add, bindM, print, exit, raise, ret, lift.
  destruct w as [jf cs ps]. cbn [jobfile commands printed].
  assert (forall (o : list output) (x y : result unit * world),
            x = y -> o <> [] -> o <> [] /\ x = y) as K by (intros; now split).
  destruct (add_mode_ args); [| |destruct (time_ args) as [s|]].
  - destruct (valid_time (time_ args)), (message_ args); cbn;
      try reflexivity;
      first [ exists [Help; Line "Missing message specification!"];
              apply K; [reflexivity | discriminate]
            | exists [Help; Line "Invalid or missing time specification!"];
              apply K; [reflexivity | discriminate] ].
  - destruct (valid_time (time_ args)), (message_ args); cbn;
      try reflexivity;
      first [ exists [Help; Line "Missing message specification!"];
              apply K; [reflexivity | discriminate]
            | exists [Help; Line "Invalid or missing time specification!"];
              apply K; [reflexivity | discriminate] ].
  - destruct (valid_date (Some s)); cbn.
    + destruct (truthy (past_date now s)), (message_ args); cbn;
        try reflexivity;
        try (exists [Line "The date should be a future date!"];
             split; [discriminate | reflexivity]).
      exists [Help; Line "Missing message specification!"].
      split; [discriminate | reflexivity].
    + exists [Help; Line "Invalid or missing date specification!"].
      split; [discriminate | reflexivity].
  - cbn. exists [Help; Line "Invalid or missing date specification!"].
    split; [discriminate | reflexivity].
Qed.

(** X6. [check_list_del] returns, with nothing printed, exactly when no
    time is given, the sound flag is off, the uptime is 0 and, for [del],
    an id is given; otherwise it prints one line and exits.  The message,
    priority and alphabetical options are not looked at. *)
Theorem check_list_del_spec (args : arguments) (w : world) :
  if list_del_accepted args
  then check_list_del args w = (Ok tt, w)
  else exists line,
         check_list_del args w
         = (Raise SystemExit,
            mkworld (jobfile w) (commands w) (Line line :: printed w)).
Proof.
  unfold list_del_accepted, check_list_del, bindM, print, exit, raise, ret.
  destruct w as [jf cs ps]. cbn [jobfile commands printed].
  destruct (time_ args); cbn; [eexists; reflexivity|].
  destruct (sound_ args); cbn; [eexists; reflexivity|].
  destruct (uptime_ args =? 0); cbn; [|eexists; reflexivity].
  destruct (operation_ args), (id_ args); cbn;
    try reflexivity; eexists; reflexivity.
Qed.

(** ** What a run does to the world *)

Lemma keeps_ret {A : Type} (a : A) : keeps_ledger (ret a).
Proof. intros w. reflexivity. Qed.

Lemma keeps_lift {A : Type} (r : result A) : keeps_ledger (lift r).
Proof. intros w. reflexivity. Qed.

Lemma keeps_print (o : output) : keeps_ledger (print o).
Proof. intros w. reflexivity. Qed.

Lemma keeps_run (shell : string -> string * string) (c : string) :
  keeps_ledger (run shell c).
Proof. intros w. reflexivity. Qed.

Lemma keeps_bind {A B : Type} (m : M A) (k : A -> M B) :
  keeps_ledger m -> (forall a, keeps_ledger (k a)) -> keeps_ledger (bindM m k).
Proof.
  intros Hm Hk w. unfold bindM. specialize (Hm w).
  destruct (m w) as [[a|e] w']; simpl in *.
  - now rewrite Hk.
  - exact Hm.
Qed.

Lemma keeps_check_arguments (now : clock) (args : arguments) :
  keeps_ledger (check_arguments now args).
Proof.
  intros w. unfold check_arguments.
  destruct (operation_ args).
  - pose proof (check_add_spec now args w) as H.
    destruct (add_accepted now args).
    + now rewrite H.
    + destruct H as (out & _ & ->). reflexivity.
  - pose proof (check_list_del_spec args w) as H.
    destruct (list_del_accepted args).
    + now rewrite H.
    + destruct H as (line & ->). reflexivity.
  - pose proof (check_list_del_spec args w) as H.
    destruct (list_del_accepted args).
    + now rewrite H.
    + destruct H as (line & ->). reflexivity.
Qed.

Lemma keeps_list_notifications
  (shell : string -> string * string) (now : clock) (alphabetical : bool) :
  keeps_ledger (list_notifications shell now alphabetical).
Proof.
  assert (keeps_ledger job_entries) as J.
  { intros w. unfold job_entries.
    destruct (jobfile w) eqn:E; cbn [snd]; exact E. }
  assert (keeps_ledger (pending_jobIDs shell)) as P.
  { unfold pending_jobIDs.
    apply keeps_bind; [apply keeps_run | intros out; apply keeps_lift]. }
  assert (keeps_ledger (get_jobs_to_list shell)) as G.
  { unfold get_jobs_to_list.
    apply keeps_bind; [exact P | intros ids].
    apply keeps_bind; [exact J | intros jobs; apply keeps_lift]. }
  unfold list_notifications, get_notification_entries.
  apply keeps_bind.
  - apply keeps_bind; [exact G | intros jobs].
    apply keeps_bind; [apply keeps_lift | intros es; apply keeps_ret].
  - intros [|e es]; apply keeps_print.
Qed.

Lemma keeps_delete_notification
  (shell : string -> string * string) (jobID : string) :
  keeps_ledger (delete_notification shell jobID).
Proof.
  unfold delete_notification.
  apply keeps_bind; [apply keeps_run | intros out].
  destruct (contains _ _); [apply keeps_print|].
  destruct (_ =? _)%string; [apply keeps_print | apply keeps_ret].
Qed.

(** X7. Listing and cancelling never change the ledger file: whatever the
    shell answers and however the run ends, the file after [main] is the
    file before.  A cancelled job keeps its row. *)
Theorem list_and_del_keep_the_ledger
  (shell : string -> string * string) (now : clock) (r : readings)
  (args : arguments) (w : world) :
  operation_ args <> OpAdd ->
  jobfile (snd (main shell now r args w)) = jobfile w.
Proof.
  intros H. unfold main.
  apply keeps_bind; [apply keeps_check_arguments | intros _].
  unfold dispatch. destruct (operation_ args); [contradiction| |].
  - apply keeps_list_notifications.
  - apply keeps_bind; [apply keeps_lift | intros j].
    apply keeps_delete_notification.
Qed.

Lemma list_and_del_keep_the_ledger_witness :
  jobfile (snd (main (fun _ => ("", "")) (clock_at 2024 6 15 12 0 30 0)
                  (at_instant (clock_at 2024 6 15 12 0 30 0))
                  (mkargs OpDel ModeAt None false false 0 None false (Some "17"))
                  (mkworld (Some (HEADER ++ job_row "17" "2024-06-15 13:00:00"
                                               "00" false "tea")) [] [])))
  = Some (HEADER ++ job_row "17" "2024-06-15 13:00:00" "00" false "tea").
Proof.
  apply (list_and_del_keep_the_ledger (fun _ => ("", ""))
           (clock_at 2024 6 15 12 0 30 0)
           (at_instant (clock_at 2024 6 15 12 0 30 0))
           (mkargs OpDel ModeAt None false false 0 None false (Some "17"))).
  discriminate.
Defined.

(** X8. When the check of the arguments does not pass, [main] stops
    there: no command is handed to the shell and the ledger is as before,
    for every operation. *)
Theorem rejected_arguments_have_no_effect
  (shell : string -> string * string) (now : clock) (r : readings)
  (args : arguments) (w : world) (e : exn) :
  fst (check_arguments now args w) = Raise e ->
  fst (main shell now r args w) = Raise SystemExit
  /\ commands (snd (main shell now r args w)) = commands w
  /\ jobfile (snd (main shell now r args w)) = jobfile w.
Proof.
  unfold main, bindM, check_arguments.
  destruct (operation_ args).
  - pose proof (check_add_spec now args w) as H.
    destruct (add_accepted now args).
    + rewrite H. discriminate.
    + destruct H as (out & _ & ->). intros _. repeat split.
  - pose proof (check_list_del_spec args w) as H.
    destruct (list_del_accepted args).
    + rewrite H. discriminate.
    + destruct H as (line & ->). intros _. repeat split.
  - pose proof (check_list_del_spec args w) as H.
    destruct (list_del_accepted args).
    + rewrite H. discriminate.
    + destruct H as (line & ->). intros _. repeat split.
Qed.

Lemma rejected_arguments_have_no_effect_witness :
  fst (main (fun _ => ("", "job 17")) (clock_at 2024 6 15 12 0 30 0)
         (at_instant (clock_at 2024 6 15 12 0 30 0))
         (mkargs OpAdd ModeAt (Some "2460") false false 0 (Some "tea") false None)
         (mkworld None [] [])) = Raise SystemExit
  /\ commands (snd (main (fun _ => ("", "job 17")) (clock_at 2024 6 15 12 0 30 0)
         (at_instant (clock_at 2024 6 15 12 0 30 0))
         (mkargs OpAdd ModeAt (Some "2460") false false 0 (Some "tea") false None)
         (mkworld None [] []))) = []
  /\ jobfile (snd (main (fun _ => ("", "job 17")) (clock_at 2024 6 15 12 0 30 0)
         (at_instant (clock_at 2024 6 15 12 0 30 0))
         (mkargs OpAdd ModeAt (Some "2460") false false 0 (Some "tea") false None)
         (mkworld None [] []))) = None.
Proof.
  apply (rejected_arguments_have_no_effect (fun _ => ("", "job 17"))
           (clock_at 2024 6 15 12 0 30 0)
           (at_instant (clock_at 2024 6 15 12 0 30 0))
           (mkargs OpAdd ModeAt (Some "2460") false false 0 (Some "tea") false None)
           (mkworld None [] []) SystemExit).
  reflexivity.
Defined.

(** ** What a run of [add] does *)

Lemma take_digits_split (s : string) :
  all_digits (take_digits s) = true
  /\ s = take_digits s ++ slice_from (len (take_digits s)) s.
Proof.
  induction s as [|c s [IH1 IH2]]; [split; reflexivity|].
  simpl. destruct (is_digit c) eqn:D.
  - split.
    + simpl. now rewrite D, IH1.
    + change (String c s = String c (take_digits s
                                      ++ slice_from (len (take_digits s)) s)).
      now rewrite <- IH2.
  - split; reflexivity.
Qed.

Lemma prefix_split (a s : string) :
  prefix a s = true -> s = a ++ slice_from (len a) s.
Proof.
  revert s. induction a as [|c a IH]; intros s H.
  - now destruct s.
  - destruct s as [|c' s]; [discriminate|].
    simpl in H. destruct (ascii_dec c c') as [->|]; [|discriminate].
    change (String c' s = String c' (a ++ slice_from (len a) s)).
    now rewrite <- IH.
Qed.

(** A match of [job [0-9]+]: the text holds [job ] followed by digits, and
    the match is that piece. *)
Lemma search_job_found (s m : string) :
  search_job s = Some m ->
  exists pre d post,
    s = pre ++ "job " ++ d ++ post /\ m = "job " ++ d
    /\ d <> "" /\ all_digits d = true.
Proof.
  induction s as [|c s IH]; [discriminate|].
  intros H. cbn [search_job] in H.
  destruct (prefix "job " (String c s)) eqn:P.
  - destruct (take_digits (slice_from 4 (String c s))) as [|x d] eqn:T.
    + destruct (IH H) as (pre & d & post & -> & -> & N & D).
      exists (String c pre), d, post. repeat split; assumption.
    + injection H as <-.
      apply prefix_split in P.
      destruct (take_digits_split (slice_from 4 (String c s))) as (D & E).
      rewrite T in D, E.
      exists "", (String x d), (slice_from (len (String x d))
                                          (slice_from 4 (String c s))).
      repeat split; try assumption; try discriminate.
      rewrite P at 1. change (len "job ") with 4%nat.
      rewrite E at 1. reflexivity.
  - destruct (IH H) as (pre & d & post & -> & -> & N & D).
    exists (String c pre), d, post. repeat split; assumption.
Qed.

(** X9. A run of [add] either raises, and then the ledger file is what it
    was, or it has handed exactly one command to the shell and appended
    exactly one row to the old content (after the header line when there
    was no file); the job id of that row is the non-empty run of digits
    that follows [job ] in what the command printed on its standard error.
    Nothing is printed in either case. *)
Theorem add_notification_effect
  (shell : string -> string * string) (r : readings) (mode : add_mode)
  (t : string) (sound prio : bool) (uptime : Z) (msg : string) (w : world) :
  let out := add_notification shell r mode t sound prio uptime msg w in
  printed (snd out) = printed w
  /\ match fst out with
     | Raise _ => jobfile (snd out) = jobfile w
     | Ok _ =>
         exists cmd jobID scheduled_time seconds_offset,
           commands (snd out) = cmd :: commands w
           /\ jobfile (snd out)
              = Some ((match jobfile w with Some old => old | None => HEADER end)
                      ++ job_row jobID scheduled_time seconds_offset prio msg)
           /\ jobID <> "" /\ all_digits jobID = true
           /\ exists pre post, snd (shell cmd) = pre ++ "job " ++ jobID ++ post
     end.
Proof.
  intros out. unfold out. rewrite add_notification_schedule.
  destruct (schedule r mode t) as [p|e]; [|split; reflexivity].
  unfold submit, bindM, lift, run. cbn [fst snd].
  set (cmd := command_to_execute _ _ _ _ _).
  destruct (search_job (snd (shell cmd))) as [m|] eqn:S; cbn [group of_option];
    [|split; reflexivity].
  destruct (get_scheduled_time (r_sched r) (fst p) (snd p)) as [st|];
    [|split; reflexivity].
  destruct (search_job_found _ _ S) as (pre & d & post & E & -> & N & D).
  split; [reflexivity|].
  exists cmd, d, st, (snd p). cbn.
  repeat split; try assumption.
  - destruct (jobfile w); [reflexivity|].
    unfold HEADER, job_row. rewrite <- app_assoc_s. reflexivity.
  - exists pre, post. exact E.
Qed.

(** ** Reading a row back *)










Lemma split_go_head (sep : string) (k : nat) (cur s : string) :
  exists x l, split_go sep k cur s = x :: l.
Proof.
  revert k cur. induction s as [|c s IH]; intros k cur.
  - now exists cur, [].
  - cbn [split_go]. destruct k as [|k]; [|apply IH].
    destruct (prefix sep (String c s)); [now eexists _, _ | apply IH].
Qed.

(** [get_time_left] returns for every row. *)
Lemma get_time_left_ok (now : clock) (dt : datetime) :
  exists time_left,
    get_time_left now dt
    = Ok (time_left, str (td_seconds (sub dt (today now)))).
Proof.
  unfold get_time_left, split.
  destruct (split_go_head "." 0 "" (str_timedelta (sub dt (today now))))
    as (x & l & ->).
  cbn. eexists. reflexivity.
Qed.




(** ** Writing a row and reading the file *)









(** ** The rows of the live jobs *)

Lemma keep_active_filter (active_IDs jobs : list string) :
  keep_active active_IDs jobs
  = if forallb has_id jobs then Ok (filter (live active_IDs) jobs)
    else Raise AttributeError.
Proof.
  induction jobs as [|line jobs IH]; [reflexivity|].
  cbn [keep_active forallb filter]. unfold get_job_ID, has_id, live.
  destruct (search_digits line) as [jobID|]; cbn [group of_option bind andb];
    [|reflexivity].
  rewrite IH. fold has_id.
  destruct (forallb has_id jobs); cbn [bind]; [|reflexivity].
  now destruct (existsb (String.eqb jobID) active_IDs).
Qed.

(** X12. [keep_active], the loop of [get_jobs_to_list], keeps exactly the
    lines whose first run of digits is one of the live ids, in the order
    of the file; a single line without any digit makes the whole listing
    end with [AttributeError]. *)
Theorem keep_active_spec (active_IDs jobs : list string) :
  keep_active active_IDs jobs
  = if forallb has_id jobs then Ok (filter (live active_IDs) jobs)
    else Raise AttributeError.
Proof. exact (keep_active_filter active_IDs jobs). Qed.

Lemma take_digits_app (a b : string) :
  all_digits a = true ->
  match b with "" => True | String c _ => is_digit c = false end ->
  take_digits (a ++ b) = a.
Proof.
  intros Ha Hb. induction a as [|c a IH].
  - destruct b as [|c b]; [reflexivity|]. simpl. now rewrite Hb.
  - simpl in Ha. apply andb_true_iff in Ha. destruct Ha as [Hc Ha].
    simpl. rewrite Hc. now rewrite IH.
Qed.

Lemma row_job_id
  (jobID sched off : string) (prio : bool) (msg : string) :
  jobID <> "" -> all_digits jobID = true ->
  get_job_ID (job_row jobID sched off prio msg) = Ok jobID.
Proof.
  intros N D. unfold get_job_ID, job_row.
  destruct jobID as [|c d]; [contradiction|].
  pose proof D as D'. simpl in D'. apply andb_true_iff in D'.
  destruct D' as [Hc _].
  change (String c d ++ " | " ++ sched ++ " | " ++ off ++ " | "
          ++ (if prio then "Yes" else "No") ++ " | " ++ msg ++ LF)
    with (String c (d ++ " | " ++ sched ++ " | " ++ off ++ " | "
          ++ (if prio then "Yes" else "No") ++ " | " ++ msg ++ LF)).
  cbn [search_digits]. rewrite Hc.
  change (String c (d ++ " | " ++ sched ++ " | " ++ off ++ " | "
          ++ (if prio then "Yes" else "No") ++ " | " ++ msg ++ LF))
    with (String c d ++ String " " ("| " ++ sched ++ " | " ++ off ++ " | "
          ++ (if prio then "Yes" else "No") ++ " | " ++ msg ++ LF)).
  rewrite take_digits_app; [reflexivity | exact D | reflexivity].
Qed.

(** X13. The job id [get_job_ID] finds in a row is the job id the row was
    written with, when that is a non-empty run of digits. *)
Theorem get_job_ID_of_row
  (jobID sched off : string) (prio : bool) (msg : string) :
  jobID <> "" -> all_digits jobID = true ->
  get_job_ID (job_row jobID sched off prio msg) = Ok jobID.
Proof. exact (row_job_id jobID sched off prio msg). Qed.

Lemma get_job_ID_of_row_witness :
  get_job_ID (job_row "17" "2024-06-15 13:00:00" "20" true "call 555 0100")
  = Ok "17".
Proof.
  apply (get_job_ID_of_row "17" "2024-06-15 13:00:00" "20" true "call 555 0100");
    [discriminate | reflexivity].
Defined.

(** ** The seconds left *)

(** X14. [get_time_left] returns for every row, and the seconds it
    reports depend on the clock times only, not on the dates: they are the
    difference of the seconds of the day, with the fraction carried,
    reduced to one day. *)
Theorem seconds_left_ignore_the_date (now : clock) (dt : datetime) :
  exists time_left,
    get_time_left now dt
    = Ok (time_left,
          str ((day_seconds dt - day_seconds (today now)
                + (microsecond dt - microsecond (today now)) / 1000000)
               mod 86400)).
Proof.
  destruct (get_time_left_ok now dt) as (tl & ->).
  exists tl. do 3 f_equal.
  unfold sub, day_seconds. cbn [td_seconds].
  set (D := toordinal dt - toordinal (today now)).
  set (x := second dt + minute dt * 60 + hour dt * 3600
            - (second (today now) + minute (today now) * 60
               + hour (today now) * 3600)).
  set (u := microsecond dt - microsecond (today now)).
  replace ((D * 86400 + x) * 1000000 + u)
    with (u + (D * 86400 + x) * 1000000) by lia.
  rewrite Z.div_add by lia.
  replace (u / 1000000 + (D * 86400 + x))
    with (x + u / 1000000 + D * 86400) by lia.
  now rewrite Z.mod_add by lia.
Qed.

(** ** The order of the listing, in general *)

Lemma insert_perm {A : Type} (key : A -> string) (x : A) (l : list A) :
  Permutation (x :: l) (insert key x l).
Proof.
  induction l as [|y l IH]; simpl; [apply Permutation_refl|].
  destruct (key y <? key x)%string; [|apply Permutation_refl].
  eapply perm_trans; [apply perm_swap|]. now apply perm_skip.
Qed.

Lemma sort_perm {A : Type} (key : A -> string) (l : list A) :
  Permutation l (sort key l).
Proof.
  induction l as [|x l IH]; simpl; [constructor|].
  eapply perm_trans; [apply perm_skip, IH | apply insert_perm].
Qed.

Lemma sort_reverse_perm {A : Type} (key : A -> string) (l : list A) :
  Permutation l (sort_reverse key l).
Proof.
  unfold sort_reverse.
  eapply perm_trans; [apply Permutation_rev|].
  eapply perm_trans; [apply sort_perm | apply Permutation_rev].
Qed.

(** X15. The rows [get_notification_entries] returns are a rearrangement
    of the rows it sorts: no row is lost or doubled, in either mode. *)
Theorem sort_entries_permutation (alphabetical : bool) (l : list entry) :
  Permutation l (sort_entries alphabetical l).
Proof.
  unfold sort_entries.
  eapply perm_trans; [|apply sort_reverse_perm].
  destruct alphabetical; apply sort_perm.
Qed.

Lemma string_leb_trans (a b c : string) :
  (a <=? b)%string = true -> (b <=? c)%string = true ->
  (a <=? c)%string = true.
Proof.
  unfold String.leb.
  revert b c. induction a as [|x a IH]; intros [|y b] [|z c]; simpl;
    try reflexivity; try discriminate.
  unfold Ascii.compare.
  destruct (N.compare_spec (N_of_ascii x) (N_of_ascii y)),
    (N.compare_spec (N_of_ascii y) (N_of_ascii z)),
    (N.compare_spec (N_of_ascii x) (N_of_ascii z));
    try lia; try reflexivity; try discriminate; try (intros; discriminate).
  apply IH.
Qed.

Lemma string_not_ltb (a b : string) :
  (a <? b)%string = false -> (b <=? a)%string = true.
Proof.
  unfold String.ltb, String.leb. rewrite (String.compare_antisym a b).
  now destruct (String.compare b a).
Qed.

Lemma string_ltb_leb (a b : string) :
  (a <? b)%string = true -> (a <=? b)%string = true.
Proof.
  unfold String.ltb, String.leb. now destruct (String.compare a b).
Qed.

Lemma insert_sorted {A : Type} (key : A -> string) (x : A) (l : list A) :
  StronglySorted (fun a b => (key a <=? key b)%string = true) l ->
  StronglySorted (fun a b => (key a <=? key b)%string = true) (insert key x l).
Proof.
  induction 1 as [|y l Hl IH Hy]; simpl.
  - constructor; constructor.
  - destruct (key y <? key x)%string eqn:E.
    + constructor; [exact IH|].
      apply (Permutation_Forall (insert_perm key x l)).
      constructor; [now apply string_ltb_leb | exact Hy].
    + apply string_not_ltb in E.
      constructor; [now constructor|].
      constructor; [exact E|].
      eapply Forall_impl; [|exact Hy].
      intros z Hz. now apply (string_leb_trans _ (key y)).
Qed.

Lemma sort_sorted {A : Type} (key : A -> string) (l : list A) :
  StronglySorted (fun a b => (key a <=? key b)%string = true) (sort key l).
Proof.
  induction l as [|x l IH]; simpl; [constructor | now apply insert_sorted].
Qed.

(** X16. With every row flagged [Yes] or [No], the listing is the stable
    partition of the first pass: the first pass arranges the rows in
    ascending order of the text of the key (the seconds left as text, or
    the message), and the result is its prioritized rows followed by its
    other rows, each group in the order of the first pass. *)
Theorem listing_order (alphabetical : bool) (l : list entry) :
  flagged l ->
  exists first_pass,
    Permutation l first_pass
    /\ StronglySorted (key_le alphabetical) first_pass
    /\ sort_entries alphabetical l
       = (filter is_yes first_pass ++ filter is_no first_pass)%list.
Proof.
  intros F.
  exists (sort (first_key alphabetical) l). repeat split.
  - apply sort_perm.
  - apply sort_sorted.
  - rewrite (sort_entries_priority alphabetical l F).
    now destruct alphabetical.
Qed.

Lemma listing_order_witness :
  exists first_pass,
    Permutation
      [mkentry "1" "2024-06-15 12:00:40" "00:00:10" "10" "No" "b";
       mkentry "3" "2024-06-15 12:01:20" "00:00:50" "50" "Yes" "c"]
      first_pass
    /\ StronglySorted (key_le false) first_pass
    /\ sort_entries false
         [mkentry "1" "2024-06-15 12:00:40" "00:00:10" "10" "No" "b";
          mkentry "3" "2024-06-15 12:01:20" "00:00:50" "50" "Yes" "c"]
       = (filter is_yes first_pass ++ filter is_no first_pass)%list.
Proof.
  apply (listing_order false).
  constructor; [right; reflexivity|].
  constructor; [left; reflexivity | constructor].
Defined.

(** ** The scheduled instant of a clock time *)






(** ** Listing *)

(** [pending_jobIDs] runs [atq] and returns the first field of each line;
    it does not raise. *)
Lemma pending_jobIDs_run (shell : string -> string * string) (w : world) :
  pending_jobIDs shell w
  = (Ok (atq_ids (fst (shell "atq"))),
     mkworld (jobfile w) ("atq" :: commands w) (printed w)).
Proof.
  unfold pending_jobIDs, bindM, run, lift, atq_ids. cbn [fst snd].
  f_equal.
  induction (splitlines (fst (shell "atq"))) as [|line ls IH]; [reflexivity|].
  cbn [mapM map]. rewrite IH. unfold split.
  destruct (split_go_head TAB 0 "" line) as (x & l & ->). reflexivity.
Qed.



(** X18. Without a ledger file, listing runs [atq] and then ends with
    [FileNotFoundError]: nothing is printed, not even the line for an
    empty list. *)
Theorem list_without_ledger
  (shell : string -> string * string) (now : clock) (alphabetical : bool)
  (w : world) :
  jobfile w = None ->
  list_notifications shell now alphabetical w
  = (Raise FileNotFoundError,
     mkworld None ("atq" :: commands w) (printed w)).
Proof.
  intros H.
  unfold list_notifications, get_notification_entries, get_jobs_to_list, bindM.
  rewrite pending_jobIDs_run. unfold job_entries. cbn [jobfile].
  rewrite H. reflexivity.
Qed.

Lemma list_without_ledger_witness :
  list_notifications (fun _ => ("", "")) (clock_at 2024 6 15 12 0 30 0) false
    (mkworld None [] [])
  = (Raise FileNotFoundError, mkworld None ["atq"] []).
Proof.
  apply (list_without_ledger (fun _ => ("", "")) (clock_at 2024 6 15 12 0 30 0)
           false (mkworld None [] [])).
  reflexivity.
Defined.


